(** * GtkWindowButtonsQuartz: the macOS native window-buttons widget

    A shallow embedding of [gtkwindowbuttonsquartz.c].  The widget is glue
    between the toolkit (its base class [GtkWidget], the root [GtkNative])
    and the [GdkMacosSurface] API, so the embedding keeps every call that
    leaves the file as a node of a small interaction tree and lets an
    arbitrary handler answer it.  What the widget owns itself, the three
    [gboolean] fields of its instance struct, is threaded as explicit state. *)

From Stdlib Require Import ZArith NArith List Bool String Lia Sorted Permutation.
Import ListNotations.

Local Open Scope Z_scope.

(** ** Data of the file and of its collaborators *)

(** [enum { PROP_0, PROP_CLOSE, PROP_MINIMIZE, PROP_MAXIMIZE, NUM_PROPERTIES }];
    a property id travels as a [guint]. *)
Definition PROP_0 : N := 0%N.
Definition PROP_CLOSE : N := 1%N.
Definition PROP_MINIMIZE : N := 2%N.
Definition PROP_MAXIMIZE : N := 3%N.
Definition NUM_PROPERTIES : N := 4%N.

(** [struct _GtkWindowButtonsQuartz].  The struct is declared in the [.c]
    file, so its three fields are reachable from this file only; the
    [parent_instance] part belongs to the base class and stays on the
    toolkit's side of the calls below. *)
Record GtkWindowButtonsQuartz : Type := {
  close : bool;
  minimize : bool;
  maximize : bool
}.

(** [GtkOrientation], as [gtkenums.h] declares it. *)
Inductive GtkOrientation : Type :=
| GTK_ORIENTATION_HORIZONTAL
| GTK_ORIENTATION_VERTICAL.

Definition orientation_eqb (a b : GtkOrientation) : bool :=
  match a, b with
  | GTK_ORIENTATION_HORIZONTAL, GTK_ORIENTATION_HORIZONTAL => true
  | GTK_ORIENTATION_VERTICAL, GTK_ORIENTATION_VERTICAL => true
  | _, _ => false
  end.

(** The four [int *] out-parameters of the [measure] vfunc.  Sizes are C
    [int]s; the file only stores and compares them, so they are plain [Z]
    and no wrap-around arises. *)
Record Measurement : Type := {
  minimum : Z;
  natural : Z;
  minimum_baseline : Z;
  natural_baseline : Z
}.

(** A [GValue] holding a [G_TYPE_BOOLEAN]. *)
Definition GValue : Type := bool.
Definition g_value_set_boolean (value : GValue) (v_boolean : bool) : GValue := v_boolean.
Definition g_value_get_boolean (value : GValue) : bool := value.

(** A [GtkNative *] is an opaque handle here. *)
Definition GtkNative : Type := N.

(** A [GdkSurface] carries the backend type it was instantiated with. *)
Inductive GdkSurfaceType : Type :=
| GDK_TYPE_MACOS_SURFACE
| GDK_TYPE_SURFACE_OTHER.

Record GdkSurface : Type := {
  surface_type : GdkSurfaceType;
  surface_handle : N
}.

(** Modelled from the spec: the header [gdk/macos/gdkmacossurface.h] with the
    type-check macro is missing; [isCompatibleSurfaceType(surface) -> bool]
    says whether a surface is the macOS-style one.  A [GdkSurface *] may be
    [NULL] ([None]), which no instance check accepts. *)
Definition GDK_IS_MACOS_SURFACE (surface : option GdkSurface) : bool :=
  match surface with
  | Some s =>
      match surface_type s with
      | GDK_TYPE_MACOS_SURFACE => true
      | GDK_TYPE_SURFACE_OTHER => false
      end
  | None => false
  end.

(** ** Calls that leave the file

    One constructor per function the file calls on its widget; the widget
    argument is left out, there is one widget throughout. *)
Inductive ExtCall : Type :=
| parent_class_realize
| parent_class_unrealize
| parent_class_size_allocate (width height baseline : Z)
| gtk_widget_get_root
| gtk_native_get_surface (native : GtkNative)
| gtk_widget_get_height
| gdk_macos_surface_show_window_controls (surface : option GdkSurface) (show : bool)
| gdk_macos_surface_enable_window_controls
    (surface : option GdkSurface) (close_ minimize_ maximize_ : bool)
| gdk_macos_surface_set_window_controls_height (surface : option GdkSurface) (height : Z)
| G_OBJECT_WARN_INVALID_PROPERTY_ID (prop_id : N).

(** What each call hands back. *)
Definition Answer (c : ExtCall) : Type :=
  match c with
  | gtk_widget_get_root => GtkNative
  | gtk_native_get_surface _ => option GdkSurface
  | gtk_widget_get_height => Z
  | gdk_macos_surface_show_window_controls _ _ => bool
  | _ => unit
  end.

(** A terminating program over those calls. *)
Inductive Prog (R : Type) : Type :=
| Ret (r : R)
| Call (c : ExtCall) (k : Answer c -> Prog R).

Arguments Ret {R} r.
Arguments Call {R} c k.

Fixpoint prog_bind {A B : Type} (p : Prog A) (f : A -> Prog B) : Prog B :=
  match p with
  | Ret a => f a
  | Call c k => Call c (fun x => prog_bind (k x) f)
  end.

(** Methods run against the instance struct: a state monad over [Prog]. *)
Definition M (A : Type) : Type :=
  GtkWindowButtonsQuartz -> Prog (A * GtkWindowButtonsQuartz).

Definition ret {A : Type} (a : A) : M A := fun self => Ret (a, self).

Definition bind {A B : Type} (m : M A) (f : A -> M B) : M B :=
  fun self => prog_bind (m self) (fun r => f (fst r) (snd r)).

Definition call (c : ExtCall) : M (Answer c) :=
  fun self => Call c (fun x => Ret (x, self)).

(** [self->field] and [self->field = v]. *)
Definition load {A : Type} (field : GtkWindowButtonsQuartz -> A) : M A :=
  fun self => Ret (field self, self).

Definition store (update : GtkWindowButtonsQuartz -> GtkWindowButtonsQuartz) : M unit :=
  fun self => Ret (tt, update self).

Declare Scope widget_scope.
Delimit Scope widget_scope with widget.
Notation "x <- m ;; k" := (bind m (fun x => k))
  (at level 61, m at next level, right associativity) : widget_scope.
Notation "m ;; k" := (bind m (fun _ => k))
  (at level 61, right associativity) : widget_scope.

Local Open Scope widget_scope.

Definition set_close (v : bool) (self : GtkWindowButtonsQuartz) : GtkWindowButtonsQuartz :=
  {| close := v; minimize := minimize self; maximize := maximize self |}.
Definition set_minimize (v : bool) (self : GtkWindowButtonsQuartz) : GtkWindowButtonsQuartz :=
  {| close := close self; minimize := v; maximize := maximize self |}.
Definition set_maximize (v : bool) (self : GtkWindowButtonsQuartz) : GtkWindowButtonsQuartz :=
  {| close := close self; minimize := minimize self; maximize := v |}.

(** ** The functions of the file *)

Definition gtk_window_buttons_quartz_get_property
    (prop_id : N) (value : GValue) : M GValue :=
  if N.eqb prop_id PROP_CLOSE then
    v <- load close ;; ret (g_value_set_boolean value v)
  else if N.eqb prop_id PROP_MINIMIZE then
    v <- load minimize ;; ret (g_value_set_boolean value v)
  else if N.eqb prop_id PROP_MAXIMIZE then
    v <- load maximize ;; ret (g_value_set_boolean value v)
  else
    call (G_OBJECT_WARN_INVALID_PROPERTY_ID prop_id) ;; ret value.

Definition gtk_window_buttons_quartz_set_property
    (prop_id : N) (value : GValue) : M unit :=
  if N.eqb prop_id PROP_CLOSE then
    store (set_close (g_value_get_boolean value))
  else if N.eqb prop_id PROP_MINIMIZE then
    store (set_minimize (g_value_get_boolean value))
  else if N.eqb prop_id PROP_MAXIMIZE then
    store (set_maximize (g_value_get_boolean value))
  else
    call (G_OBJECT_WARN_INVALID_PROPERTY_ID prop_id).

Definition update_native_window_buttons_height : M unit :=
  native <- call gtk_widget_get_root ;;
  surface <- call (gtk_native_get_surface native) ;;
  if GDK_IS_MACOS_SURFACE surface then
    height <- call gtk_widget_get_height ;;
    if height >? 0 then
      call (gdk_macos_surface_set_window_controls_height surface height)
    else ret tt
  else ret tt.

Definition gtk_window_buttons_quartz_realize : M unit :=
  call parent_class_realize ;;
  native <- call gtk_widget_get_root ;;
  surface <- call (gtk_native_get_surface native) ;;
  if GDK_IS_MACOS_SURFACE surface then
    granted <- call (gdk_macos_surface_show_window_controls surface true) ;;
    if (granted : bool) then
      c <- load close ;;
      mi <- load minimize ;;
      ma <- load maximize ;;
      call (gdk_macos_surface_enable_window_controls surface c mi ma)
    else ret tt
  else ret tt.

Definition gtk_window_buttons_quartz_unrealize : M unit :=
  native <- call gtk_widget_get_root ;;
  surface <- call (gtk_native_get_surface native) ;;
  (if GDK_IS_MACOS_SURFACE surface then
     call (gdk_macos_surface_show_window_controls surface false) ;; ret tt
   else ret tt) ;;
  call parent_class_unrealize.

Definition gtk_window_buttons_quartz_measure
    (orientation : GtkOrientation) (for_size : Z) (out : Measurement) : M Measurement :=
  if orientation_eqb orientation GTK_ORIENTATION_VERTICAL then
    ret {| minimum := 28; natural := 28;
           minimum_baseline := minimum_baseline out;
           natural_baseline := natural_baseline out |}
  else if orientation_eqb orientation GTK_ORIENTATION_HORIZONTAL then
    ret {| minimum := 60; natural := 60;
           minimum_baseline := minimum_baseline out;
           natural_baseline := natural_baseline out |}
  else ret out.

Definition gtk_window_buttons_quartz_size_allocate (width height baseline : Z) : M unit :=
  call (parent_class_size_allocate width height baseline) ;;
  update_native_window_buttons_height.

Definition gtk_window_buttons_quartz_init : M unit := ret tt.

(** ** Class initialisation and the property table *)

(** [GParamFlags] bits, as GLib numbers them. *)
Definition G_PARAM_READABLE : Z := Z.shiftl 1 0.
Definition G_PARAM_WRITABLE : Z := Z.shiftl 1 1.
Definition G_PARAM_CONSTRUCT : Z := Z.shiftl 1 2.
Definition G_PARAM_CONSTRUCT_ONLY : Z := Z.shiftl 1 3.

Definition has_flag (flags flag : Z) : bool := negb (Z.land flags flag =? 0).

Record GParamSpec : Type := {
  pspec_name : string;
  pspec_nick : option string;
  pspec_blurb : option string;
  default_value : bool;
  pspec_flags : Z
}.

Definition g_param_spec_boolean
    (name : string) (nick blurb : option string) (default : bool) (flags : Z) : GParamSpec :=
  {| pspec_name := name; pspec_nick := nick; pspec_blurb := blurb;
     default_value := default; pspec_flags := flags |}.

(** The class struct after [class_init]: the vfuncs the file overrides and
    the [props] array handed to [g_object_class_install_properties].  The CSS
    name and the accessible role, which no operation below reads, are left
    out. *)
Record GtkWindowButtonsQuartzClass : Type := {
  get_property : N -> GValue -> M GValue;
  set_property : N -> GValue -> M unit;
  measure : GtkOrientation -> Z -> Measurement -> M Measurement;
  size_allocate : Z -> Z -> Z -> M unit;
  realize : M unit;
  unrealize : M unit;
  props : list (option GParamSpec)
}.

Section ClassInit.

(** [GTK_PARAM_READWRITE] comes from [gtkprivate.h], which is not among
    the sources: any flag word will do. *)
Variable GTK_PARAM_READWRITE : Z.

Definition gtk_window_buttons_quartz_class_init : GtkWindowButtonsQuartzClass :=
  {| get_property := gtk_window_buttons_quartz_get_property;
     set_property := gtk_window_buttons_quartz_set_property;
     measure := gtk_window_buttons_quartz_measure;
     size_allocate := gtk_window_buttons_quartz_size_allocate;
     realize := gtk_window_buttons_quartz_realize;
     unrealize := gtk_window_buttons_quartz_unrealize;
     props :=
       [ None;
         Some (g_param_spec_boolean "close" None None true
                 (Z.lor GTK_PARAM_READWRITE G_PARAM_CONSTRUCT_ONLY));
         Some (g_param_spec_boolean "minimize" None None true
                 (Z.lor GTK_PARAM_READWRITE G_PARAM_CONSTRUCT_ONLY));
         Some (g_param_spec_boolean "maximize" None None true
                 (Z.lor GTK_PARAM_READWRITE G_PARAM_CONSTRUCT_ONLY)) ] |}.

End ClassInit.

(** ** Construction through the property system *)

Fixpoint find_param (name : string) (params : list (string * bool)) : option bool :=
  match params with
  | [] => None
  | (n, v) :: rest => if String.eqb n name then Some v else find_param name rest
  end.

(** Modelled from the spec: the object system that constructs the widget is
    an external collaborator.  Section 4.1 has the options written once, at
    construction, and section 3 has each option default when unspecified:
    for an installed property that carries [G_PARAM_CONSTRUCT] or
    [G_PARAM_CONSTRUCT_ONLY] the class setter is called once, with the
    caller's value or else the declared default; any other property is set
    only when the caller names it. *)
Definition construct_property (klass : GtkWindowButtonsQuartzClass)
    (params : list (string * bool)) (prop_id : N) (pspec : option GParamSpec) : M unit :=
  match pspec with
  | None => ret tt
  | Some p =>
      if has_flag (pspec_flags p) G_PARAM_CONSTRUCT
         || has_flag (pspec_flags p) G_PARAM_CONSTRUCT_ONLY
      then
        match find_param (pspec_name p) params with
        | Some v => set_property klass prop_id v
        | None => set_property klass prop_id (default_value p)
        end
      else
        match find_param (pspec_name p) params with
        | Some v => set_property klass prop_id v
        | None => ret tt
        end
  end.

Fixpoint construct_properties (klass : GtkWindowButtonsQuartzClass)
    (params : list (string * bool)) (prop_id : N) (pspecs : list (option GParamSpec))
    : M unit :=
  match pspecs with
  | [] => ret tt
  | pspec :: rest =>
      construct_property klass params prop_id pspec ;;
      construct_properties klass params (N.succ prop_id) rest
  end.

(** Instance memory comes zero-filled. *)
Definition zeroed_instance : GtkWindowButtonsQuartz :=
  {| close := false; minimize := false; maximize := false |}.

Definition g_object_new (klass : GtkWindowButtonsQuartzClass)
    (params : list (string * bool)) : Prog GtkWindowButtonsQuartz :=
  prog_bind
    ((gtk_window_buttons_quartz_init ;;
      construct_properties klass params PROP_0 (props klass)) zeroed_instance)
    (fun r => Ret (snd r)).

(** ** Lifecycle, as the toolkit drives it through the class *)

Inductive LifecycleOp : Type :=
| op_realize
| op_unrealize
| op_measure (orientation : GtkOrientation) (for_size : Z) (out : Measurement)
| op_size_allocate (width height baseline : Z).

Definition dispatch (klass : GtkWindowButtonsQuartzClass) (op : LifecycleOp) : M unit :=
  match op with
  | op_realize => realize klass
  | op_unrealize => unrealize klass
  | op_measure orientation for_size out =>
      measure klass orientation for_size out ;; ret tt
  | op_size_allocate width height baseline => size_allocate klass width height baseline
  end.

Fixpoint lifecycle (klass : GtkWindowButtonsQuartzClass) (ops : list LifecycleOp) : M unit :=
  match ops with
  | [] => ret tt
  | op :: rest => dispatch klass op ;; lifecycle klass rest
  end.

(** ** Running a program against the toolkit *)

(** The toolkit answers every call from a state of its own. *)
Definition Handler (Env : Type) : Type := forall c : ExtCall, Env -> Answer c * Env.

Record Entry : Type := Called { call_of : ExtCall; answer_of : Answer call_of }.

Fixpoint exec {Env R : Type} (h : Handler Env) (p : Prog R) (env : Env)
    : R * Env * list Entry :=
  match p with
  | Ret r => (r, env, [])
  | Call c k =>
      let ae := h c env in
      let o := exec h (k (fst ae)) (snd ae) in
      (fst (fst o), snd (fst o), Called c (fst ae) :: snd o)
  end.

Section Run.

Context {Env A : Type} (h : Handler Env).

Definition run (m : M A) (self : GtkWindowButtonsQuartz) (env : Env) :=
  exec h (m self) env.

(** The value returned, the instance struct and the toolkit state
    afterwards, and the calls made with their answers, in order. *)
Definition value_of (m : M A) self env : A := fst (fst (fst (run m self env))).
Definition self_after (m : M A) self env : GtkWindowButtonsQuartz :=
  snd (fst (fst (run m self env))).
Definition env_after (m : M A) self env : Env := snd (fst (run m self env)).
Definition log_of (m : M A) self env : list Entry := snd (run m self env).

End Run.

(** ** Reading a log *)

Definition calls (log : list Entry) : list ExtCall := map call_of log.

Definition is_surface_call (c : ExtCall) : bool :=
  match c with
  | gdk_macos_surface_show_window_controls _ _ => true
  | gdk_macos_surface_enable_window_controls _ _ _ _ => true
  | gdk_macos_surface_set_window_controls_height _ _ => true
  | _ => false
  end.

(** The requests made of the surface, in order. *)
Definition surface_calls (log : list Entry) : list ExtCall :=
  filter is_surface_call (calls log).

Definition is_warning (c : ExtCall) : bool :=
  match c with
  | G_OBJECT_WARN_INVALID_PROPERTY_ID _ => true
  | _ => false
  end.

Definition warnings (log : list Entry) : list ExtCall := filter is_warning (calls log).

(** The surfaces [gtk_native_get_surface] returned. *)
Definition surface_answer (e : Entry) : option (option GdkSurface) :=
  match e with
  | Called c a =>
      match c return Answer c -> option (option GdkSurface) with
      | gtk_native_get_surface _ => fun s => Some s
      | _ => fun _ => None
      end a
  end.

(** The heights [gtk_widget_get_height] returned. *)
Definition height_answer (e : Entry) : option Z :=
  match e with
  | Called c a =>
      match c return Answer c -> option Z with
      | gtk_widget_get_height => fun z => Some z
      | _ => fun _ => None
      end a
  end.

(** What [gdk_macos_surface_show_window_controls] returned. *)
Definition grant_answer (e : Entry) : option bool :=
  match e with
  | Called c a =>
      match c return Answer c -> option bool with
      | gdk_macos_surface_show_window_controls _ _ => fun b => Some b
      | _ => fun _ => None
      end a
  end.

Fixpoint collect {A B : Type} (f : A -> option B) (l : list A) : list B :=
  match l with
  | [] => []
  | x :: rest =>
      match f x with
      | Some y => y :: collect f rest
      | None => collect f rest
      end
  end.

Definition surfaces_returned (log : list Entry) : list (option GdkSurface) :=
  collect surface_answer log.
Definition heights_returned (log : list Entry) : list Z := collect height_answer log.
Definition grants_returned (log : list Entry) : list bool := collect grant_answer log.

Definition is_show_window_controls (c : ExtCall) : bool :=
  match c with
  | gdk_macos_surface_show_window_controls _ _ => true
  | _ => false
  end.

Definition is_enable_window_controls (c : ExtCall) : bool :=
  match c with
  | gdk_macos_surface_enable_window_controls _ _ _ _ => true
  | _ => false
  end.

Definition is_set_window_controls_height (c : ExtCall) : bool :=
  match c with
  | gdk_macos_surface_set_window_controls_height _ _ => true
  | _ => false
  end.

(** How many calls of one kind a log holds. *)
Definition times (kind : ExtCall -> bool) (log : list Entry) : nat :=
  List.length (filter kind (calls log)).

(** ** A reference toolkit *)

(** Modelled from the spec: the base widget and the surface are outside the
    sources.  The widget sits under one root whose surface is fixed;
    the base allocation logic records the allocated height, which is the
    current height read back afterwards; [showWindowControls] "returns
    whether native controls are actually available/granted", a property of
    the surface; the other surface requests return nothing. *)
Record Toolkit : Type := {
  root : GtkNative;
  root_surface : option GdkSurface;
  allocated_height : Z;
  controls_available : bool
}.

Definition set_allocated_height (height : Z) (tk : Toolkit) : Toolkit :=
  {| root := root tk; root_surface := root_surface tk;
     allocated_height := height; controls_available := controls_available tk |}.

Definition toolkit : Handler Toolkit :=
  fun c =>
    match c return Toolkit -> Answer c * Toolkit with
    | parent_class_realize => fun tk => (tt, tk)
    | parent_class_unrealize => fun tk => (tt, tk)
    | parent_class_size_allocate _ height _ => fun tk => (tt, set_allocated_height height tk)
    | gtk_widget_get_root => fun tk => (root tk, tk)
    | gtk_native_get_surface native =>
        fun tk => (if N.eqb native (root tk) then root_surface tk else None, tk)
    | gtk_widget_get_height => fun tk => (allocated_height tk, tk)
    | gdk_macos_surface_show_window_controls _ _ => fun tk => (controls_available tk, tk)
    | gdk_macos_surface_enable_window_controls _ _ _ _ => fun tk => (tt, tk)
    | gdk_macos_surface_set_window_controls_height _ _ => fun tk => (tt, tk)
    | G_OBJECT_WARN_INVALID_PROPERTY_ID _ => fun tk => (tt, tk)
    end.

(** A window whose surface is [surface], nothing allocated yet. *)
Definition window (surface : option GdkSurface) (available : bool) : Toolkit :=
  {| root := 1%N; root_surface := surface;
     allocated_height := 0; controls_available := available |}.

Definition macos_surface (handle : N) : option GdkSurface :=
  Some {| surface_type := GDK_TYPE_MACOS_SURFACE; surface_handle := handle |}.

Definition other_surface (handle : N) : option GdkSurface :=
  Some {| surface_type := GDK_TYPE_SURFACE_OTHER; surface_handle := handle |}.

(** ** The runs the statements are about *)

Section Logs.

Context {Env : Type} (h : Handler Env).

Definition realize_log self env : list Entry :=
  log_of h gtk_window_buttons_quartz_realize self env.

Definition unrealize_log self env : list Entry :=
  log_of h gtk_window_buttons_quartz_unrealize self env.

Definition size_allocate_log width height baseline self env : list Entry :=
  log_of h (gtk_window_buttons_quartz_size_allocate width height baseline) self env.

(** The instance [g_object_new] hands back. *)
Definition constructed (klass : GtkWindowButtonsQuartzClass)
    (params : list (string * bool)) env : GtkWindowButtonsQuartz :=
  fst (fst (exec h (g_object_new klass params) env)).

(** Reading property [prop_id] once [ops] have run. *)
Definition read_after (klass : GtkWindowButtonsQuartzClass) (ops : list LifecycleOp)
    (prop_id : N) (value : GValue) self env : GValue :=
  value_of h (lifecycle klass ops ;; get_property klass prop_id value) self env.

End Logs.

Definition all_options (c mi ma : bool) : list (string * bool) :=
  [("close"%string, c); ("minimize"%string, mi); ("maximize"%string, ma)].

(** What an option is constructed to: the caller's value, or [default]. *)
Definition option_or (default : bool) (name : string) (params : list (string * bool)) : bool :=
  match find_param name params with
  | Some v => v
  | None => default
  end.

(** construct, realize, allocate height 30, allocate height 50, unrealize. *)
Definition sequence_test (klass : GtkWindowButtonsQuartzClass) (c mi ma : bool)
    (width1 baseline1 width2 baseline2 : Z) : Prog (unit * GtkWindowButtonsQuartz) :=
  prog_bind (g_object_new klass (all_options c mi ma))
    (lifecycle klass
       [op_realize;
        op_size_allocate width1 30 baseline1;
        op_size_allocate width2 50 baseline2;
        op_unrealize]).

(** Is the slot of the [props] array empty or construct-only? *)
Definition construct_only (pspec : option GParamSpec) : bool :=
  match pspec with
  | Some p => has_flag (pspec_flags p) G_PARAM_CONSTRUCT_ONLY
  | None => true
  end.

(** What [measure] leaves in its out-parameters. *)
Definition measured {Env : Type} (h : Handler Env) (orientation : GtkOrientation)
    (for_size : Z) (out : Measurement) self env : Measurement :=
  value_of h (gtk_window_buttons_quartz_measure orientation for_size out) self env.

(** The struct after [set_property (prop_id, value)]. *)
Definition written {Env : Type} (h : Handler Env) (prop_id : N) (value : GValue)
    self env : GtkWindowButtonsQuartz :=
  self_after h (gtk_window_buttons_quartz_set_property prop_id value) self env.

Definition sequence_log {Env : Type} (h : Handler Env) (klass : GtkWindowButtonsQuartzClass)
    (c mi ma : bool) (width1 baseline1 width2 baseline2 : Z) (env : Env) : list Entry :=
  snd (exec h (sequence_test klass c mi ma width1 baseline1 width2 baseline2) env).

(** A call that is not [setWindowControlsHeight], or one with a height above zero. *)
Definition height_is_positive (c : ExtCall) : bool :=
  match c with
  | gdk_macos_surface_set_window_controls_height _ height => height >? 0
  | _ => true
  end.

(** ** Further readings of a run *)

(** The calls of a whole sequence of lifecycle operations. *)
Definition lifecycle_log {Env : Type} (h : Handler Env) (klass : GtkWindowButtonsQuartzClass)
    (ops : list LifecycleOp) self env : list Entry :=
  log_of h (lifecycle klass ops) self env.

(** A call that is no request of a surface, or one whose surface passes
    the instance check. *)
Definition on_macos_surface (c : ExtCall) : bool :=
  match c with
  | gdk_macos_surface_show_window_controls surface _ => GDK_IS_MACOS_SURFACE surface
  | gdk_macos_surface_enable_window_controls surface _ _ _ => GDK_IS_MACOS_SURFACE surface
  | gdk_macos_surface_set_window_controls_height surface _ => GDK_IS_MACOS_SURFACE surface
  | _ => true
  end.

(** The chained-up vfuncs of the parent class. *)
Definition is_parent_call (c : ExtCall) : bool :=
  match c with
  | parent_class_realize => true
  | parent_class_unrealize => true
  | parent_class_size_allocate _ _ _ => true
  | _ => false
  end.

(** The operations whose override chains up. *)
Definition chains_up (op : LifecycleOp) : bool :=
  match op with
  | op_measure _ _ _ => false
  | _ => true
  end.

(** A request to show the controls that the surface granted. *)
Definition is_granted_show (e : Entry) : bool :=
  match e with
  | Called c a =>
      match c return Answer c -> bool with
      | gdk_macos_surface_show_window_controls _ show => fun granted => show && granted
      | _ => fun _ => false
      end a
  end.

Definition granted_shows (log : list Entry) : nat :=
  List.length (filter is_granted_show log).

(** Does [g_object_class_install_properties] find a pspec at [prop_id]? *)
Definition installed (klass : GtkWindowButtonsQuartzClass) (prop_id : N) : bool :=
  match nth_error (props klass) (N.to_nat prop_id) with
  | Some (Some _) => true
  | _ => false
  end.

(** * The settings viewer demo

    A shallow embedding of the callbacks of the Lists/Settings demo: the
    editable value cell, the tree of schemas and the search entry.  The
    callbacks are glue again, between GSettings, the list models and the
    widgets; objects are opaque handles, every call that leaves the file is
    a node of an interaction tree, and the one piece of state the callbacks
    share, the file-static [current_filter], is threaded explicitly.
    [do_listview_settings], which builds the window from a resource and
    toggles it through a weak pointer, is not modelled. *)
Module ListviewSettings.

(** A [GType] of the two the file names. *)
Inductive GType : Type :=
| SETTINGS_TYPE_KEY
| G_TYPE_SETTINGS.

(** What [g_variant_parse] hands back: the variant, or [NULL] with the
    [GError] set. *)
Inductive ParseResult : Type :=
| parsed (variant : N)
| parse_error (message : string).

(** What [g_free] is given: a string, or a [NULL]-terminated string array
    that may itself be [NULL]. *)
Inductive Pointer : Type :=
| string_ptr (s : string)
| strv_ptr (strv : option (list string)).

(** A [GValue] holding an object, or [NULL]. *)
Definition GValue : Type := option N.
Definition g_value_get_object (value : GValue) : option N := value.
Definition g_value_take_object (value : GValue) (v_object : N) : GValue := Some v_object.

(** ** Calls that leave the file *)
Inductive Ext : Type :=
| gtk_editable_label_get_editing (label : N)
| gtk_editable_get_text (editable : N)
| gtk_editable_set_text (editable : N) (text : string)
| gtk_widget_error_bell (widget : N)
| gtk_column_view_cell_get_item (cell : N)
| settings_key_get_key (self : N)
| settings_key_get_settings (self : N)
| settings_key_new (settings key : N)
| g_settings_schema_key_get_value_type (key : N)
| g_settings_schema_key_get_name (key : N)
| g_settings_schema_key_range_check (key variant : N)
| g_settings_schema_key_unref (key : N)
| g_settings_set_value (settings : N) (name : string) (variant : N)
| g_settings_schema_list_keys (schema : N)
| g_settings_schema_get_key (schema : N) (name : string)
| g_settings_schema_unref (schema : N)
| g_settings_schema_source_get_default
| g_settings_schema_source_list_schemas (source : N) (recursive : bool)
| g_settings_list_children (settings : N)
| g_settings_new (schema_id : string)
| g_settings_get_child (settings : N) (name : string)
| g_variant_parse (type : N) (text : string)
| g_variant_unref (variant : N)
| g_warning (message : string)
| g_clear_error (message : string)
| g_object_get_string (object : N) (property : string)
| g_object_get_object (object : N) (property : string)
| g_object_ref (object : N)
| g_object_unref (object : N)
| g_set_object (old_object : option N) (new_object : N)
| g_free (mem : Pointer)
| g_strfreev (strv : list string)
| g_list_store_new (item_type : GType)
| g_list_store_append (store item : N)
| gtk_tree_list_row_get_item (row : N)
| gtk_column_view_get_sorter (column_view : N)
| gtk_sort_list_model_new (model sorter : N)
| gtk_property_expression_new (this_type : GType) (expression : option N)
    (property_name : string)
| gtk_string_filter_new (expression : N)
| gtk_string_filter_set_search (filter : N) (search : string)
| gtk_filter_list_model_new (model filter : N)
| gtk_no_selection_new (model : N).

(** What each call hands back. *)
Definition Answer (c : Ext) : Type :=
  match c with
  | gtk_editable_label_get_editing _ => bool
  | gtk_editable_get_text _ => string
  | gtk_column_view_cell_get_item _ => N
  | settings_key_get_key _ => N
  | settings_key_get_settings _ => N
  | settings_key_new _ _ => N
  | g_settings_schema_key_get_value_type _ => N
  | g_settings_schema_key_get_name _ => string
  | g_settings_schema_key_range_check _ _ => bool
  | g_settings_schema_list_keys _ => list string
  | g_settings_schema_get_key _ _ => N
  | g_settings_schema_source_get_default => N
  | g_settings_schema_source_list_schemas _ _ => option (list string)
  | g_settings_list_children _ => option (list string)
  | g_settings_new _ => N
  | g_settings_get_child _ _ => N
  | g_variant_parse _ _ => ParseResult
  | g_object_get_string _ _ => string
  | g_object_get_object _ _ => N
  | g_list_store_new _ => N
  | gtk_tree_list_row_get_item _ => N
  | gtk_column_view_get_sorter _ => N
  | gtk_sort_list_model_new _ _ => N
  | gtk_property_expression_new _ _ _ => N
  | gtk_string_filter_new _ => N
  | gtk_filter_list_model_new _ _ => N
  | gtk_no_selection_new _ => N
  | _ => unit
  end.

Inductive Prog (R : Type) : Type :=
| Ret (r : R)
| Call (c : Ext) (k : Answer c -> Prog R).

Arguments Ret {R} r.
Arguments Call {R} c k.

Fixpoint prog_bind {A B : Type} (p : Prog A) (f : A -> Prog B) : Prog B :=
  match p with
  | Ret a => f a
  | Call c k => Call c (fun x => prog_bind (k x) f)
  end.

(** [static GtkFilter *current_filter;] *)
Record Globals : Type := { current_filter : option N }.

Definition M (A : Type) : Type := Globals -> Prog (A * Globals).

Definition ret {A : Type} (a : A) : M A := fun g => Ret (a, g).

Definition bind {A B : Type} (m : M A) (f : A -> M B) : M B :=
  fun g => prog_bind (m g) (fun r => f (fst r) (snd r)).

Definition call (c : Ext) : M (Answer c) := fun g => Call c (fun x => Ret (x, g)).

Definition load {A : Type} (global : Globals -> A) : M A := fun g => Ret (global g, g).

Definition store_current_filter (filter : option N) : M unit :=
  fun _ => Ret (tt, {| current_filter := filter |}).

Declare Scope settings_scope.
Delimit Scope settings_scope with settings.
Notation "x <- m ;; k" := (bind m (fun x => k))
  (at level 61, m at next level, right associativity) : settings_scope.
Notation "m ;; k" := (bind m (fun _ => k))
  (at level 61, right associativity) : settings_scope.

Local Open Scope settings_scope.
Local Open Scope string_scope.

(** ** The functions of the file *)

(** The [revert:] label of [item_value_changed]. *)
Definition revert (label self : N) : M unit :=
  call (gtk_widget_error_bell label) ;;
  value <- call (g_object_get_string self "value") ;;
  call (gtk_editable_set_text label value) ;;
  call (g_free (string_ptr value)).

Definition item_value_changed (label pspec cell : N) : M unit :=
  editing <- call (gtk_editable_label_get_editing label) ;;
  if (editing : bool) then ret tt
  else
    text <- call (gtk_editable_get_text label) ;;
    self <- call (gtk_column_view_cell_get_item cell) ;;
    key <- call (settings_key_get_key self) ;;
    type <- call (g_settings_schema_key_get_value_type key) ;;
    name <- call (g_settings_schema_key_get_name key) ;;
    variant <- call (g_variant_parse type text) ;;
    match variant with
    | parse_error message =>
        call (g_warning message) ;;
        call (g_clear_error message) ;;
        revert label self
    | parsed variant =>
        in_range <- call (g_settings_schema_key_range_check key variant) ;;
        if negb in_range then
          call (g_warning ("Not a valid value for " ++ name)) ;;
          revert label self
        else
          settings <- call (settings_key_get_settings self) ;;
          call (g_settings_set_value settings name variant) ;;
          call (g_variant_unref variant)
    end.

(** [strcmp] orders strings by their bytes as [unsigned char]; of its result
    only the sign is specified. *)
Definition strcmp (s1 s2 : string) : Z :=
  match String.compare s1 s2 with
  | Lt => (-1)%Z
  | Eq => 0%Z
  | Gt => 1%Z
  end.

Definition strvcmp (p1 p2 : string) : Z := strcmp p1 p2.

(** [qsort (base, nmemb, size, compar)] leaves the first [nmemb] elements in
    ascending order of [compar].  The order [strcmp] gives has equal elements
    only where the strings are equal, so which sorting algorithm runs does
    not show; insertion is the one written here. *)
Fixpoint insert_sorted {A : Type} (compar : A -> A -> Z) (x : A) (l : list A) : list A :=
  match l with
  | [] => [x]
  | y :: rest =>
      if (compar x y <=? 0)%Z then x :: y :: rest
      else y :: insert_sorted compar x rest
  end.

Fixpoint sort_by {A : Type} (compar : A -> A -> Z) (l : list A) : list A :=
  match l with
  | [] => []
  | x :: rest => insert_sorted compar x (sort_by compar rest)
  end.

Definition qsort {A : Type} (base : list A) (nmemb : nat) (compar : A -> A -> Z) : list A :=
  sort_by compar (firstn nmemb base) ++ skipn nmemb base.

Definition g_strv_length (str_array : list string) : nat := List.length str_array.

(** The loop of [transform_settings_to_keys] over the [NULL]-terminated
    [keys]. *)
Fixpoint append_keys (store settings schema : N) (keys : list string) : M unit :=
  match keys with
  | [] => ret tt
  | key :: rest =>
      almost_there <- call (g_settings_schema_get_key schema key) ;;
      finally <- call (settings_key_new settings almost_there) ;;
      call (g_list_store_append store finally) ;;
      call (g_object_unref finally) ;;
      call (g_settings_schema_key_unref almost_there) ;;
      append_keys store settings schema rest
  end.

(** [g_set_object (&current_filter, filter)]: GLib adjusts the reference
    counts and assigns the pointer. *)
Definition g_set_object_current_filter (filter : N) : M unit :=
  old <- load current_filter ;;
  call (g_set_object old filter) ;;
  store_current_filter (Some filter).

Definition transform_settings_to_keys
    (binding : N) (from_value : GValue) (to_value : GValue) (data : N)
    : M (bool * GValue) :=
  match g_value_get_object from_value with
  | None => ret (true, to_value)
  | Some treelistrow =>
      settings <- call (gtk_tree_list_row_get_item treelistrow) ;;
      schema <- call (g_object_get_object settings "settings-schema") ;;
      store <- call (g_list_store_new SETTINGS_TYPE_KEY) ;;
      keys <- call (g_settings_schema_list_keys schema) ;;
      append_keys store settings schema keys ;;
      call (g_strfreev keys) ;;
      call (g_settings_schema_unref schema) ;;
      call (g_object_unref settings) ;;
      sorter <- call (gtk_column_view_get_sorter data) ;;
      call (g_object_ref sorter) ;;
      sort_model <- call (gtk_sort_list_model_new store sorter) ;;
      expression <- call (gtk_property_expression_new SETTINGS_TYPE_KEY None "name") ;;
      filter <- call (gtk_string_filter_new expression) ;;
      g_set_object_current_filter filter ;;
      filter_model <- call (gtk_filter_list_model_new sort_model filter) ;;
      selection <- call (gtk_no_selection_new filter_model) ;;
      ret (true, g_value_take_object to_value selection)
  end.

(** The second loop of [create_settings_model], over the sorted schemas. *)
Fixpoint append_children (result : N) (settings : option N) (schemas : list string)
    : M unit :=
  match schemas with
  | [] => ret tt
  | schema :: rest =>
      child <- match settings return M N with
               | None => call (g_settings_new schema)
               | Some parent => call (g_settings_get_child parent schema)
               end ;;
      call (g_list_store_append result child) ;;
      call (g_object_unref child) ;;
      append_children result settings rest
  end.

Definition create_settings_model (item : option N) (unused : option N) : M (option N) :=
  schemas <- match item return M (option (list string)) with
             | None =>
                 source <- call g_settings_schema_source_get_default ;;
                 call (g_settings_schema_source_list_schemas source true)
             | Some settings => call (g_settings_list_children settings)
             end ;;
  match schemas with
  | None => call (g_free (strv_ptr schemas)) ;; ret None
  | Some [] => call (g_free (strv_ptr schemas)) ;; ret None
  | Some (first :: others) =>
      let sorted := qsort (first :: others) (g_strv_length (first :: others)) strvcmp in
      result <- call (g_list_store_new G_TYPE_SETTINGS) ;;
      append_children result item sorted ;;
      call (g_strfreev sorted) ;;
      ret (Some result)
  end.

Definition search_enabled (entry : N) : M unit :=
  call (gtk_editable_set_text entry EmptyString).

Definition search_changed (entry data : N) : M unit :=
  text <- call (gtk_editable_get_text entry) ;;
  filter <- load current_filter ;;
  match filter with
  | Some f => call (gtk_string_filter_set_search f text)
  | None => ret tt
  end.

Definition stop_search (entry data : N) : M unit :=
  call (gtk_editable_set_text entry EmptyString) ;;
  filter <- load current_filter ;;
  match filter with
  | Some f => call (gtk_string_filter_set_search f EmptyString)
  | None => ret tt
  end.

(** ** Running a callback *)

Definition Handler (Env : Type) : Type := forall c : Ext, Env -> Answer c * Env.

Record Entry : Type := Called { call_of : Ext; answer_of : Answer call_of }.

Fixpoint exec {Env R : Type} (h : Handler Env) (p : Prog R) (env : Env)
    : R * Env * list Entry :=
  match p with
  | Ret r => (r, env, [])
  | Call c k =>
      let ae := h c env in
      let o := exec h (k (fst ae)) (snd ae) in
      (fst (fst o), snd (fst o), Called c (fst ae) :: snd o)
  end.

Definition value_of {Env A : Type} (h : Handler Env) (m : M A) (g : Globals) (env : Env) : A :=
  fst (fst (fst (exec h (m g) env))).
Definition globals_after {Env A : Type} (h : Handler Env) (m : M A) (g : Globals)
    (env : Env) : Globals :=
  snd (fst (fst (exec h (m g) env))).
Definition env_after {Env A : Type} (h : Handler Env) (m : M A) (g : Globals) (env : Env)
    : Env :=
  snd (fst (exec h (m g) env)).
Definition log_of {Env A : Type} (h : Handler Env) (m : M A) (g : Globals) (env : Env)
    : list Entry :=
  snd (exec h (m g) env).

Definition calls (log : list Entry) : list Ext := map call_of log.


(** ** Reading a log *)

Definition answers {B : Type} (pick : forall c : Ext, Answer c -> option B)
    (log : list Entry) : list B :=
  collect (fun e => pick (call_of e) (answer_of e)) log.

Definition requests {B : Type} (pick : Ext -> option B) (log : list Entry) : list B :=
  collect (fun e => pick (call_of e)) log.

(** Whether the label was being edited. *)
Definition editing_answers : list Entry -> list bool :=
  answers (fun c =>
    match c return Answer c -> option bool with
    | gtk_editable_label_get_editing _ => fun b => Some b
    | _ => fun _ => None
    end).

Definition parse_results : list Entry -> list ParseResult :=
  answers (fun c =>
    match c return Answer c -> option ParseResult with
    | g_variant_parse _ _ => fun r => Some r
    | _ => fun _ => None
    end).

Definition range_checks : list Entry -> list bool :=
  answers (fun c =>
    match c return Answer c -> option bool with
    | g_settings_schema_key_range_check _ _ => fun b => Some b
    | _ => fun _ => None
    end).

(** The item of the cell, the name of its key, its settings object and its
    stored value, as the toolkit returned them. *)
Definition items_returned : list Entry -> list N :=
  answers (fun c =>
    match c return Answer c -> option N with
    | gtk_column_view_cell_get_item _ => fun n => Some n
    | _ => fun _ => None
    end).

Definition key_names_returned : list Entry -> list string :=
  answers (fun c =>
    match c return Answer c -> option string with
    | g_settings_schema_key_get_name _ => fun s => Some s
    | _ => fun _ => None
    end).

Definition settings_returned : list Entry -> list N :=
  answers (fun c =>
    match c return Answer c -> option N with
    | settings_key_get_settings _ => fun n => Some n
    | _ => fun _ => None
    end).

Definition values_returned : list Entry -> list string :=
  answers (fun c =>
    match c return Answer c -> option string with
    | g_object_get_string _ _ => fun s => Some s
    | _ => fun _ => None
    end).

(** The calls that only look something up or parse. *)
Definition is_query (c : Ext) : bool :=
  match c with
  | gtk_editable_label_get_editing _ => true
  | gtk_editable_get_text _ => true
  | gtk_column_view_cell_get_item _ => true
  | settings_key_get_key _ => true
  | settings_key_get_settings _ => true
  | g_settings_schema_key_get_value_type _ => true
  | g_settings_schema_key_get_name _ => true
  | g_settings_schema_key_range_check _ _ => true
  | g_variant_parse _ _ => true
  | g_object_get_string _ _ => true
  | _ => false
  end.

(** The calls that act: writes, warnings, the bell, releases. *)
Definition actions (log : list Entry) : list Ext :=
  filter (fun c => negb (is_query c)) (calls log).

(** What the two listing functions returned. *)
Definition listings : list Entry -> list (option (list string)) :=
  answers (fun c =>
    match c return Answer c -> option (option (list string)) with
    | g_settings_schema_source_list_schemas _ _ => fun l => Some l
    | g_settings_list_children _ => fun l => Some l
    | _ => fun _ => None
    end).

(** The children asked for: the parent ([None] at the top level) and the
    schema or child name. *)
Definition children_requested : list Entry -> list (option N * string) :=
  requests (fun c =>
    match c with
    | g_settings_new schema_id => Some (None, schema_id)
    | g_settings_get_child settings name => Some (Some settings, name)
    | _ => None
    end).

Definition children_returned : list Entry -> list N :=
  answers (fun c =>
    match c return Answer c -> option N with
    | g_settings_new _ => fun n => Some n
    | g_settings_get_child _ _ => fun n => Some n
    | _ => fun _ => None
    end).

Definition stores_returned : list Entry -> list N :=
  answers (fun c =>
    match c return Answer c -> option N with
    | g_list_store_new _ => fun n => Some n
    | _ => fun _ => None
    end).

(** (store, item) of every [g_list_store_append]. *)
Definition appended : list Entry -> list (N * N) :=
  requests (fun c =>
    match c with
    | g_list_store_append store item => Some (store, item)
    | _ => None
    end).

Definition unreffed : list Entry -> list N :=
  requests (fun c =>
    match c with
    | g_object_unref object => Some object
    | _ => None
    end).

Definition freed : list Entry -> list Pointer :=
  requests (fun c =>
    match c with
    | g_free mem => Some mem
    | _ => None
    end).

Definition strv_freed : list Entry -> list (list string) :=
  requests (fun c =>
    match c with
    | g_strfreev strv => Some strv
    | _ => None
    end).

(** The keys of the schema, as listed, and what was done per key. *)
Definition keys_listed : list Entry -> list (list string) :=
  answers (fun c =>
    match c return Answer c -> option (list string) with
    | g_settings_schema_list_keys _ => fun l => Some l
    | _ => fun _ => None
    end).

Definition keys_requested : list Entry -> list string :=
  requests (fun c =>
    match c with
    | g_settings_schema_get_key _ name => Some name
    | _ => None
    end).

Definition schema_keys_returned : list Entry -> list N :=
  answers (fun c =>
    match c return Answer c -> option N with
    | g_settings_schema_get_key _ _ => fun n => Some n
    | _ => fun _ => None
    end).

Definition schema_keys_wrapped : list Entry -> list N :=
  requests (fun c =>
    match c with
    | settings_key_new _ key => Some key
    | _ => None
    end).

Definition schema_keys_unreffed : list Entry -> list N :=
  requests (fun c =>
    match c with
    | g_settings_schema_key_unref key => Some key
    | _ => None
    end).

Definition settings_keys_returned : list Entry -> list N :=
  answers (fun c =>
    match c return Answer c -> option N with
    | settings_key_new _ _ => fun n => Some n
    | _ => fun _ => None
    end).

(** The string filters made, the filter of every filter model made, and
    the (filter, text) of every search set. *)
Definition filters_returned : list Entry -> list N :=
  answers (fun c =>
    match c return Answer c -> option N with
    | gtk_string_filter_new _ => fun n => Some n
    | _ => fun _ => None
    end).

Definition filters_modelled : list Entry -> list N :=
  requests (fun c =>
    match c with
    | gtk_filter_list_model_new _ filter => Some filter
    | _ => None
    end).

Definition selections_returned : list Entry -> list N :=
  answers (fun c =>
    match c return Answer c -> option N with
    | gtk_no_selection_new _ => fun n => Some n
    | _ => fun _ => None
    end).

Definition searches : list Entry -> list (N * string) :=
  requests (fun c =>
    match c with
    | gtk_string_filter_set_search filter search => Some (filter, search)
    | _ => None
    end).

Definition texts_returned : list Entry -> list string :=
  answers (fun c =>
    match c return Answer c -> option string with
    | gtk_editable_get_text _ => fun s => Some s
    | _ => fun _ => None
    end).

(** ** A reference environment

    Every lookup answers from a fixed table; nothing changes state. *)
Record Session : Type := {
  editing : bool;
  entry_text : string;
  parse : string -> ParseResult;
  in_range : N -> bool;
  stored_value : string;
  schemas_listed : option (list string);
  schema_keys : list string
}.

Definition name_handle (s : string) : N := N.of_nat (String.length s).

Definition session : Handler Session :=
  fun c =>
    match c return Session -> Answer c * Session with
    | gtk_editable_label_get_editing _ => fun s => (editing s, s)
    | gtk_editable_get_text _ => fun s => (entry_text s, s)
    | gtk_editable_set_text _ _ => fun s => (tt, s)
    | gtk_widget_error_bell _ => fun s => (tt, s)
    | gtk_column_view_cell_get_item _ => fun s => (10%N, s)
    | settings_key_get_key _ => fun s => (11%N, s)
    | settings_key_get_settings _ => fun s => (12%N, s)
    | settings_key_new _ key => fun s => ((100 + key)%N, s)
    | g_settings_schema_key_get_value_type _ => fun s => (13%N, s)
    | g_settings_schema_key_get_name _ => fun s => ("font-size", s)
    | g_settings_schema_key_range_check _ variant => fun s => (in_range s variant, s)
    | g_settings_schema_key_unref _ => fun s => (tt, s)
    | g_settings_set_value _ _ _ => fun s => (tt, s)
    | g_settings_schema_list_keys _ => fun s => (schema_keys s, s)
    | g_settings_schema_get_key _ name => fun s => (name_handle name, s)
    | g_settings_schema_unref _ => fun s => (tt, s)
    | g_settings_schema_source_get_default => fun s => (1%N, s)
    | g_settings_schema_source_list_schemas _ _ => fun s => (schemas_listed s, s)
    | g_settings_list_children _ => fun s => (schemas_listed s, s)
    | g_settings_new schema_id => fun s => (name_handle schema_id, s)
    | g_settings_get_child _ name => fun s => (name_handle name, s)
    | g_variant_parse _ text => fun s => (parse s text, s)
    | g_variant_unref _ => fun s => (tt, s)
    | g_warning _ => fun s => (tt, s)
    | g_clear_error _ => fun s => (tt, s)
    | g_object_get_string _ _ => fun s => (stored_value s, s)
    | g_object_get_object _ _ => fun s => (14%N, s)
    | g_object_ref _ => fun s => (tt, s)
    | g_object_unref _ => fun s => (tt, s)
    | g_set_object _ _ => fun s => (tt, s)
    | g_free _ => fun s => (tt, s)
    | g_strfreev _ => fun s => (tt, s)
    | g_list_store_new _ => fun s => (20%N, s)
    | g_list_store_append _ _ => fun s => (tt, s)
    | gtk_tree_list_row_get_item _ => fun s => (12%N, s)
    | gtk_column_view_get_sorter _ => fun s => (21%N, s)
    | gtk_sort_list_model_new _ _ => fun s => (22%N, s)
    | gtk_property_expression_new _ _ _ => fun s => (23%N, s)
    | gtk_string_filter_new _ => fun s => (24%N, s)
    | gtk_string_filter_set_search _ _ => fun s => (tt, s)
    | gtk_filter_list_model_new _ _ => fun s => (25%N, s)
    | gtk_no_selection_new _ => fun s => (26%N, s)
    end.

(** Every text but the empty one parses, to a variant numbered by its
    length; variants up to 3 are in range. *)
Definition a_session (being_edited : bool) (text : string)
    (listed : option (list string)) (keys : list string) : Session :=
  {| editing := being_edited;
     entry_text := text;
     parse := fun t => if String.eqb t EmptyString then parse_error "empty" else parsed (name_handle t);
     in_range := fun variant => (variant <=? 3)%N;
     stored_value := "12";
     schemas_listed := listed;
     schema_keys := keys |}.

Definition no_filter : Globals := {| current_filter := None |}.

End ListviewSettings.

(** ** Proof steps *)

(** Name the toolkit's next answer, and go on. *)
Ltac answers h :=
  repeat match goal with
         | |- context [h ?c ?env] =>
             let a := fresh "a" in
             let env' := fresh "env" in
             destruct (h c env) as [a env']; cbn in *
         end.

Ltac run_method h :=
  unfold realize_log, unrealize_log, size_allocate_log,
    log_of, self_after, value_of, env_after, run; cbn; answers h.

(** One step of a run: the next answer, or the next test the code makes. *)
Ltac step h :=
  match goal with
  | |- context [h ?c ?env] => destruct (h c env) as [? ?]; cbn
  | |- context [if GDK_IS_MACOS_SURFACE ?s then _ else _] =>
      destruct (GDK_IS_MACOS_SURFACE s) eqn:?; cbn
  | |- context [if ?z >? 0 then _ else _] => destruct (z >? 0) eqn:?; cbn
  | |- context [if ?b then _ else _] => is_var b; destruct b; cbn
  end.

(** ** Running a sequence *)

Lemma exec_bind {Env A B : Type} (h : Handler Env) (p : Prog A) (f : A -> Prog B) :
  forall env,
    exec h (prog_bind p f) env =
    (fst (fst (exec h (f (fst (fst (exec h p env)))) (snd (fst (exec h p env))))),
     snd (fst (exec h (f (fst (fst (exec h p env)))) (snd (fst (exec h p env))))),
     snd (exec h p env)
       ++ snd (exec h (f (fst (fst (exec h p env)))) (snd (fst (exec h p env))))).
Proof.
  induction p as [r | c k IH]; intros env; simpl.
  - destruct (exec h (f r) env) as [[b env'] log]. reflexivity.
  - rewrite IH. reflexivity.
Qed.

Section RunBind.

Context {Env A B : Type} (h : Handler Env) (m : M A) (f : A -> M B).
Variables (self : GtkWindowButtonsQuartz) (env : Env).

Lemma value_of_bind :
  value_of h (bind m f) self env
  = value_of h (f (value_of h m self env)) (self_after h m self env) (env_after h m self env).
Proof.
  unfold value_of, run, bind. rewrite exec_bind. reflexivity.
Qed.

Lemma self_after_bind :
  self_after h (bind m f) self env
  = self_after h (f (value_of h m self env)) (self_after h m self env)
      (env_after h m self env).
Proof.
  unfold self_after, run, bind. rewrite exec_bind. reflexivity.
Qed.

Lemma env_after_bind :
  env_after h (bind m f) self env
  = env_after h (f (value_of h m self env)) (self_after h m self env)
      (env_after h m self env).
Proof.
  unfold env_after, run, bind. rewrite exec_bind. reflexivity.
Qed.

Lemma log_of_bind :
  log_of h (bind m f) self env
  = log_of h m self env
      ++ log_of h (f (value_of h m self env)) (self_after h m self env)
           (env_after h m self env).
Proof.
  unfold log_of, run, bind. rewrite exec_bind. reflexivity.
Qed.

End RunBind.

(** ** No lifecycle method writes the instance struct *)

Section KeepsSelf.

Context {Env : Type} (h : Handler Env).
Variables (self : GtkWindowButtonsQuartz) (env : Env).

Lemma realize_keeps_self :
  self_after h gtk_window_buttons_quartz_realize self env = self.
Proof.
  run_method h.
  destruct (GDK_IS_MACOS_SURFACE _); cbn; answers h; [ | reflexivity].
  match goal with b : bool |- _ => destruct b end; cbn; answers h; reflexivity.
Qed.

Lemma unrealize_keeps_self :
  self_after h gtk_window_buttons_quartz_unrealize self env = self.
Proof.
  run_method h.
  destruct (GDK_IS_MACOS_SURFACE _); cbn; answers h; reflexivity.
Qed.

Lemma measure_keeps_self orientation for_size out :
  self_after h (gtk_window_buttons_quartz_measure orientation for_size out) self env = self.
Proof.
  destruct orientation; reflexivity.
Qed.

Lemma size_allocate_keeps_self width height baseline :
  self_after h (gtk_window_buttons_quartz_size_allocate width height baseline) self env
  = self.
Proof.
  run_method h.
  destruct (GDK_IS_MACOS_SURFACE _); cbn; answers h; [ | reflexivity].
  destruct (_ >? 0); cbn; answers h; reflexivity.
Qed.

End KeepsSelf.

Lemma lifecycle_keeps_self {Env : Type} (h : Handler Env) (rw : Z) (ops : list LifecycleOp) :
  forall self env,
    self_after h (lifecycle (gtk_window_buttons_quartz_class_init rw) ops) self env = self.
Proof.
  induction ops as [| op ops IH]; intros self env.
  - reflexivity.
  - simpl lifecycle. rewrite self_after_bind, IH.
    destruct op; simpl dispatch.
    + apply realize_keeps_self.
    + apply unrealize_keeps_self.
    + rewrite self_after_bind. cbn. apply measure_keeps_self.
    + apply size_allocate_keeps_self.
Qed.

(** ** The property table *)

Lemma construct_only_is_set (rw : Z) :
  has_flag (Z.lor rw G_PARAM_CONSTRUCT_ONLY) G_PARAM_CONSTRUCT_ONLY = true.
Proof.
  unfold has_flag. apply negb_true_iff, Z.eqb_neq. intros H.
  assert (Hbit : Z.testbit (Z.land (Z.lor rw G_PARAM_CONSTRUCT_ONLY) G_PARAM_CONSTRUCT_ONLY) 3
                 = true).
  { rewrite Z.land_spec, Z.lor_spec.
    replace (Z.testbit G_PARAM_CONSTRUCT_ONLY 3) with true by reflexivity.
    now rewrite orb_true_r. }
  rewrite H in Hbit. discriminate.
Qed.

(** [g_object_class_install_properties (gobject_class, NUM_PROPERTIES, props)]. *)
Example props_has_num_properties_slots (rw : Z) :
  N.of_nat (List.length (props (gtk_window_buttons_quartz_class_init rw))) = NUM_PROPERTIES.
Proof. reflexivity. Qed.

Lemma construct_installed_property (rw : Z) (params : list (string * bool))
    (prop_id : N) (name : string) :
  construct_property (gtk_window_buttons_quartz_class_init rw) params prop_id
    (Some (g_param_spec_boolean name None None true (Z.lor rw G_PARAM_CONSTRUCT_ONLY)))
  = gtk_window_buttons_quartz_set_property prop_id (option_or true name params).
Proof.
  unfold construct_property, option_or. cbn [pspec_flags pspec_name default_value g_param_spec_boolean].
  rewrite construct_only_is_set, orb_true_r.
  destruct (find_param name params); reflexivity.
Qed.

Lemma g_object_new_flags (rw : Z) (params : list (string * bool)) :
  g_object_new (gtk_window_buttons_quartz_class_init rw) params
  = Ret {| close := option_or true "close" params;
           minimize := option_or true "minimize" params;
           maximize := option_or true "maximize" params |}.
Proof.
  unfold g_object_new. cbn [props gtk_window_buttons_quartz_class_init construct_properties].
  rewrite !construct_installed_property. reflexivity.
Qed.

(** ** Realize *)

(** C1. When the surface handed to realize is a macOS surface, realize asks
    it to show the window controls, [showWindowControls(surface, true)], once;
    if the answer is true, [enableWindowControls] follows exactly once, with
    the close, minimize and maximize flags of the instance; if the answer is
    false, [enableWindowControls] is not called. *)
Theorem realize_shows_then_enables :
  forall (Env : Type) (h : Handler Env) (env : Env)
         (self : GtkWindowButtonsQuartz) (surface : option GdkSurface),
    surfaces_returned (realize_log h self env) = [surface] ->
    GDK_IS_MACOS_SURFACE surface = true ->
    exists granted : bool,
      grants_returned (realize_log h self env) = [granted]
      /\ surface_calls (realize_log h self env)
         = gdk_macos_surface_show_window_controls surface true
           :: (if granted
               then [gdk_macos_surface_enable_window_controls surface
                       (close self) (minimize self) (maximize self)]
               else [])
      /\ times is_enable_window_controls (realize_log h self env)
         = (if granted then 1%nat else 0%nat).
Proof.
  intros Env h env self surface.
  unfold realize_log, log_of, run. cbn.
  destruct (h parent_class_realize env) as [[] env1]. cbn.
  destruct (h gtk_widget_get_root env1) as [native env2]. cbn.
  destruct (h (gtk_native_get_surface native) env2) as [found env3]. cbn.
  destruct (GDK_IS_MACOS_SURFACE found) eqn:Hfound; cbn.
  - destruct (h (gdk_macos_surface_show_window_controls found true) env3)
      as [granted env4]. cbn.
    destruct granted; cbn.
    + destruct (h (gdk_macos_surface_enable_window_controls found
                     (close self) (minimize self) (maximize self)) env4) as [[] env5].
      cbn. intros [= <-] _. exists true. auto.
    + intros [= <-] _. exists false. auto.
  - intros [= <-] Hyes. congruence.
Qed.

Lemma realize_shows_then_enables_witness :
  exists granted : bool,
    grants_returned
      (realize_log toolkit {| close := true; minimize := false; maximize := true |}
         (window (macos_surface 7) true)) = [granted]
    /\ surface_calls
         (realize_log toolkit {| close := true; minimize := false; maximize := true |}
            (window (macos_surface 7) true))
       = gdk_macos_surface_show_window_controls (macos_surface 7) true
         :: (if granted
             then [gdk_macos_surface_enable_window_controls (macos_surface 7)
                     true false true]
             else [])
    /\ times is_enable_window_controls
         (realize_log toolkit {| close := true; minimize := false; maximize := true |}
            (window (macos_surface 7) true))
       = (if granted then 1%nat else 0%nat).
Proof.
  apply (realize_shows_then_enables Toolkit toolkit (window (macos_surface 7) true)
           {| close := true; minimize := false; maximize := true |} (macos_surface 7)).
  - reflexivity.
  - reflexivity.
Defined.

(** C4. When the surface handed to realize is not a macOS surface (or is
    [NULL]), realize makes no request of the surface, neither
    [showWindowControls] nor [enableWindowControls]: it calls the base
    realize, looks the surface up and returns normally, with no warning
    raised and the instance as it was. *)
Theorem realize_inert_on_other_surface :
  forall (Env : Type) (h : Handler Env) (env : Env)
         (self : GtkWindowButtonsQuartz) (surface : option GdkSurface),
    surfaces_returned (realize_log h self env) = [surface] ->
    GDK_IS_MACOS_SURFACE surface = false ->
    surface_calls (realize_log h self env) = []
    /\ warnings (realize_log h self env) = []
    /\ self_after h gtk_window_buttons_quartz_realize self env = self
    /\ exists native : GtkNative,
        calls (realize_log h self env)
        = [parent_class_realize; gtk_widget_get_root; gtk_native_get_surface native].
Proof.
  intros Env h env self surface Hsurface Hother.
  split; [ | split; [ | split; [apply realize_keeps_self | ]]];
    revert Hsurface; unfold realize_log, log_of, run; cbn;
    destruct (h parent_class_realize env) as [[] env1]; cbn;
    destruct (h gtk_widget_get_root env1) as [native env2]; cbn;
    destruct (h (gtk_native_get_surface native) env2) as [found env3]; cbn;
    intros Hsurface;
    assert (Hsame : found = surface)
      by (destruct (GDK_IS_MACOS_SURFACE found); now injection Hsurface);
    subst found; rewrite Hother; cbn.
  - reflexivity.
  - reflexivity.
  - exists native. reflexivity.
Qed.

Lemma realize_inert_on_other_surface_witness :
  surface_calls
    (realize_log toolkit {| close := true; minimize := true; maximize := true |}
       (window (other_surface 3) true)) = []
  /\ warnings
       (realize_log toolkit {| close := true; minimize := true; maximize := true |}
          (window (other_surface 3) true)) = []
  /\ self_after toolkit gtk_window_buttons_quartz_realize
       {| close := true; minimize := true; maximize := true |}
       (window (other_surface 3) true)
     = {| close := true; minimize := true; maximize := true |}
  /\ exists native : GtkNative,
      calls
        (realize_log toolkit {| close := true; minimize := true; maximize := true |}
           (window (other_surface 3) true))
      = [parent_class_realize; gtk_widget_get_root; gtk_native_get_surface native].
Proof.
  apply (realize_inert_on_other_surface Toolkit toolkit (window (other_surface 3) true)
           {| close := true; minimize := true; maximize := true |} (other_surface 3)).
  - reflexivity.
  - reflexivity.
Defined.

(** ** Unrealize *)

(** C3. When the surface handed to unrealize is a macOS surface, unrealize
    calls [showWindowControls(surface, false)] exactly once, whatever state
    the toolkit and the surface are in (so whether or not realize ever had
    the controls enabled), and only then the base class unrealize. *)
Theorem unrealize_hides_controls_first :
  forall (Env : Type) (h : Handler Env) (env : Env)
         (self : GtkWindowButtonsQuartz) (surface : option GdkSurface),
    surfaces_returned (unrealize_log h self env) = [surface] ->
    GDK_IS_MACOS_SURFACE surface = true ->
    surface_calls (unrealize_log h self env)
    = [gdk_macos_surface_show_window_controls surface false]
    /\ times is_show_window_controls (unrealize_log h self env) = 1%nat
    /\ exists native : GtkNative,
        calls (unrealize_log h self env)
        = [gtk_widget_get_root; gtk_native_get_surface native;
           gdk_macos_surface_show_window_controls surface false;
           parent_class_unrealize].
Proof.
  intros Env h env self surface.
  unfold unrealize_log. unfold gtk_window_buttons_quartz_unrealize.
  rewrite !log_of_bind.
  unfold log_of, value_of, self_after, env_after, run. cbn.
  destruct (h gtk_widget_get_root env) as [native env1]. cbn.
  destruct (h (gtk_native_get_surface native) env1) as [found env2]. cbn.
  case_eq (GDK_IS_MACOS_SURFACE found); intros Hfound; cbn.
  - destruct (h (gdk_macos_surface_show_window_controls found false) env2)
      as [granted env3]. cbn.
    destruct (h parent_class_unrealize env3) as [[] env4]. cbn.
    intros Heq _. injection Heq as ->.
    repeat split. exists native. reflexivity.
  - destruct (h parent_class_unrealize env2) as [[] env3]. cbn.
    intros Heq Hyes. injection Heq as ->. rewrite Hyes in Hfound. discriminate.
Qed.

Lemma unrealize_hides_controls_first_witness :
  surface_calls
    (unrealize_log toolkit {| close := true; minimize := true; maximize := false |}
       (window (macos_surface 7) false))
  = [gdk_macos_surface_show_window_controls (macos_surface 7) false]
  /\ times is_show_window_controls
       (unrealize_log toolkit {| close := true; minimize := true; maximize := false |}
          (window (macos_surface 7) false)) = 1%nat
  /\ exists native : GtkNative,
      calls
        (unrealize_log toolkit {| close := true; minimize := true; maximize := false |}
           (window (macos_surface 7) false))
      = [gtk_widget_get_root; gtk_native_get_surface native;
         gdk_macos_surface_show_window_controls (macos_surface 7) false;
         parent_class_unrealize].
Proof.
  apply (unrealize_hides_controls_first Toolkit toolkit (window (macos_surface 7) false)
           {| close := true; minimize := true; maximize := false |} (macos_surface 7));
    reflexivity.
Defined.

(** Realize on a surface that refuses the controls, then unrealize: the hide
    request is still made. *)
Example unrealize_after_refused_realize :
  surface_calls
    (log_of toolkit
       (gtk_window_buttons_quartz_realize ;; gtk_window_buttons_quartz_unrealize)
       {| close := true; minimize := true; maximize := true |}
       (window (macos_surface 7) false))
  = [gdk_macos_surface_show_window_controls (macos_surface 7) true;
     gdk_macos_surface_show_window_controls (macos_surface 7) false].
Proof. reflexivity. Qed.

(** ** Size allocation *)

(** C2. Every size-allocate call hands (width, height, baseline) to the base
    class first.  It then looks up the surface; on a macOS surface it reads
    the widget's current height [current] back, and calls
    [setWindowControlsHeight(surface, current)] exactly once if and only if
    [current] is greater than zero.  No height of zero or less ever reaches
    the surface. *)
Theorem size_allocate_propagates_positive_height :
  forall (Env : Type) (h : Handler Env) (env : Env) (self : GtkWindowButtonsQuartz)
         (width height baseline : Z),
  exists (surface : option GdkSurface) (current : Z) (rest : list ExtCall),
    calls (size_allocate_log h width height baseline self env)
    = parent_class_size_allocate width height baseline :: rest
    /\ surfaces_returned (size_allocate_log h width height baseline self env) = [surface]
    /\ heights_returned (size_allocate_log h width height baseline self env)
       = (if GDK_IS_MACOS_SURFACE surface then [current] else [])
    /\ surface_calls (size_allocate_log h width height baseline self env)
       = (if GDK_IS_MACOS_SURFACE surface && (current >? 0)
          then [gdk_macos_surface_set_window_controls_height surface current]
          else [])
    /\ times is_set_window_controls_height
         (size_allocate_log h width height baseline self env)
       = (if GDK_IS_MACOS_SURFACE surface && (current >? 0) then 1%nat else 0%nat)
    /\ forallb height_is_positive
         (calls (size_allocate_log h width height baseline self env)) = true.
Proof.
  intros Env h env self width height baseline.
  unfold size_allocate_log, log_of, run. cbn.
  destruct (h (parent_class_size_allocate width height baseline) env) as [[] env1]. cbn.
  destruct (h gtk_widget_get_root env1) as [native env2]. cbn.
  destruct (h (gtk_native_get_surface native) env2) as [surface env3]. cbn.
  destruct (GDK_IS_MACOS_SURFACE surface) eqn:Hsurface; cbn.
  - destruct (h gtk_widget_get_height env3) as [current env4]. cbn.
    exists surface, current. rewrite Hsurface. cbn.
    destruct (current >? 0) eqn:Hcurrent; cbn.
    + destruct (h (gdk_macos_surface_set_window_controls_height surface current) env4)
        as [[] env5]. cbn.
      rewrite Hcurrent. eexists. repeat split.
    + eexists. repeat split.
  - exists surface, 0. rewrite Hsurface. cbn.
    eexists. repeat split.
Qed.

(** The two allocations the specification singles out, on the reference
    toolkit: height 0 reaches no surface, height 44 reaches it once. *)
Example size_allocate_height_0 :
  surface_calls
    (size_allocate_log toolkit 60 0 (-1)
       {| close := true; minimize := true; maximize := true |}
       (window (macos_surface 7) true)) = [].
Proof. reflexivity. Qed.

Example size_allocate_height_44 :
  surface_calls
    (size_allocate_log toolkit 60 44 (-1)
       {| close := true; minimize := true; maximize := true |}
       (window (macos_surface 7) true))
  = [gdk_macos_surface_set_window_controls_height (macos_surface 7) 44].
Proof. reflexivity. Qed.

(** C10. When the surface handed to size-allocate is not a macOS surface,
    the allocation never calls [setWindowControlsHeight], whatever the
    height: after the base class call it only looks the surface up, and
    does not even read the height back. *)
Theorem size_allocate_leaves_other_surface_alone :
  forall (Env : Type) (h : Handler Env) (env : Env) (self : GtkWindowButtonsQuartz)
         (width height baseline : Z) (surface : option GdkSurface),
    surfaces_returned (size_allocate_log h width height baseline self env) = [surface] ->
    GDK_IS_MACOS_SURFACE surface = false ->
    times is_set_window_controls_height
      (size_allocate_log h width height baseline self env) = 0%nat
    /\ surface_calls (size_allocate_log h width height baseline self env) = []
    /\ heights_returned (size_allocate_log h width height baseline self env) = []
    /\ exists native : GtkNative,
        calls (size_allocate_log h width height baseline self env)
        = [parent_class_size_allocate width height baseline;
           gtk_widget_get_root; gtk_native_get_surface native].
Proof.
  intros Env h env self width height baseline surface.
  unfold size_allocate_log, gtk_window_buttons_quartz_size_allocate.
  rewrite log_of_bind.
  unfold update_native_window_buttons_height, log_of, value_of, self_after, env_after, run.
  cbn.
  destruct (h (parent_class_size_allocate width height baseline) env) as [[] env1]. cbn.
  destruct (h gtk_widget_get_root env1) as [native env2]. cbn.
  destruct (h (gtk_native_get_surface native) env2) as [found env3]. cbn.
  intros Hfound Hother.
  assert (Hsame : found = surface).
  { destruct (GDK_IS_MACOS_SURFACE found); cbn in Hfound; congruence. }
  rewrite Hsame, Hother. cbn.
  repeat split. exists native. reflexivity.
Qed.

Lemma size_allocate_leaves_other_surface_alone_witness :
  times is_set_window_controls_height
    (size_allocate_log toolkit 60 44 (-1)
       {| close := true; minimize := true; maximize := true |}
       (window (other_surface 3) true)) = 0%nat
  /\ surface_calls
       (size_allocate_log toolkit 60 44 (-1)
          {| close := true; minimize := true; maximize := true |}
          (window (other_surface 3) true)) = []
  /\ heights_returned
       (size_allocate_log toolkit 60 44 (-1)
          {| close := true; minimize := true; maximize := true |}
          (window (other_surface 3) true)) = []
  /\ exists native : GtkNative,
      calls
        (size_allocate_log toolkit 60 44 (-1)
           {| close := true; minimize := true; maximize := true |}
           (window (other_surface 3) true))
      = [parent_class_size_allocate 60 44 (-1);
         gtk_widget_get_root; gtk_native_get_surface native].
Proof.
  apply (size_allocate_leaves_other_surface_alone Toolkit toolkit
           (window (other_surface 3) true)
           {| close := true; minimize := true; maximize := true |}
           60 44 (-1) (other_surface 3)).
  - reflexivity.
  - reflexivity.
Defined.

(** ** The whole life of a widget *)

(** C5. Construct with flags (close, minimize, maximize), realize, allocate
    height 30, allocate height 50, unrealize, against any toolkit that hands
    out one macOS surface throughout, grants the controls at realize and
    reports the allocated heights 30 and 50 as the current ones: the surface
    receives showWindowControls(true), enableWindowControls(close, minimize,
    maximize), setWindowControlsHeight(30), setWindowControlsHeight(50),
    showWindowControls(false), in that order, and nothing else. *)
Theorem sequence_test_surface_calls :
  forall (Env : Type) (h : Handler Env) (env : Env) (rw : Z) (c mi ma : bool)
         (width1 baseline1 width2 baseline2 : Z)
         (surface : option GdkSurface) (hidden : bool),
    GDK_IS_MACOS_SURFACE surface = true ->
    surfaces_returned
      (sequence_log h (gtk_window_buttons_quartz_class_init rw) c mi ma
         width1 baseline1 width2 baseline2 env) = [surface; surface; surface; surface] ->
    grants_returned
      (sequence_log h (gtk_window_buttons_quartz_class_init rw) c mi ma
         width1 baseline1 width2 baseline2 env) = [true; hidden] ->
    heights_returned
      (sequence_log h (gtk_window_buttons_quartz_class_init rw) c mi ma
         width1 baseline1 width2 baseline2 env) = [30; 50] ->
    surface_calls
      (sequence_log h (gtk_window_buttons_quartz_class_init rw) c mi ma
         width1 baseline1 width2 baseline2 env)
    = [gdk_macos_surface_show_window_controls surface true;
       gdk_macos_surface_enable_window_controls surface c mi ma;
       gdk_macos_surface_set_window_controls_height surface 30;
       gdk_macos_surface_set_window_controls_height surface 50;
       gdk_macos_surface_show_window_controls surface false].
Proof.
  intros Env h env rw c mi ma width1 baseline1 width2 baseline2 surface hidden Hmacos.
  unfold sequence_log, sequence_test. rewrite g_object_new_flags. cbn.
  repeat step h;
    intros Hsurfaces Hgrants Hheights;
    try discriminate Hsurfaces; try discriminate Hgrants; try discriminate Hheights;
    repeat match goal with
           | H : _ :: _ = _ :: _ |- _ => injection H as H; subst
           end;
    try congruence; discriminate.
Qed.

Lemma sequence_test_surface_calls_witness :
  surface_calls
    (sequence_log toolkit (gtk_window_buttons_quartz_class_init 227) true false true
       60 (-1) 60 (-1) (window (macos_surface 7) true))
  = [gdk_macos_surface_show_window_controls (macos_surface 7) true;
     gdk_macos_surface_enable_window_controls (macos_surface 7) true false true;
     gdk_macos_surface_set_window_controls_height (macos_surface 7) 30;
     gdk_macos_surface_set_window_controls_height (macos_surface 7) 50;
     gdk_macos_surface_show_window_controls (macos_surface 7) false].
Proof.
  apply (sequence_test_surface_calls Toolkit toolkit (window (macos_surface 7) true)
           227 true false true 60 (-1) 60 (-1) (macos_surface 7) true).
  - reflexivity.
  - reflexivity.
  - reflexivity.
  - reflexivity.
Defined.

(** On the reference toolkit the same holds for every choice of flags,
    surface handle, widths and baselines. *)
Example sequence_test_on_reference_toolkit :
  forall (rw : Z) (c mi ma : bool) (handle : N) (width1 baseline1 width2 baseline2 : Z),
    surface_calls
      (sequence_log toolkit (gtk_window_buttons_quartz_class_init rw) c mi ma
         width1 baseline1 width2 baseline2 (window (macos_surface handle) true))
    = [gdk_macos_surface_show_window_controls (macos_surface handle) true;
       gdk_macos_surface_enable_window_controls (macos_surface handle) c mi ma;
       gdk_macos_surface_set_window_controls_height (macos_surface handle) 30;
       gdk_macos_surface_set_window_controls_height (macos_surface handle) 50;
       gdk_macos_surface_show_window_controls (macos_surface handle) false].
Proof.
  intros rw c mi ma handle width1 baseline1 width2 baseline2.
  unfold sequence_log, sequence_test. rewrite g_object_new_flags. reflexivity.
Qed.

(** ** Properties *)

Lemma get_property_reads_field {Env : Type} (h : Handler Env) (rw : Z)
    (value : GValue) (self : GtkWindowButtonsQuartz) (env : Env) :
  let klass := gtk_window_buttons_quartz_class_init rw in
  value_of h (get_property klass PROP_CLOSE value) self env = close self
  /\ value_of h (get_property klass PROP_MINIMIZE value) self env = minimize self
  /\ value_of h (get_property klass PROP_MAXIMIZE value) self env = maximize self.
Proof.
  repeat split.
Qed.

Lemma read_after_lifecycle {Env : Type} (h : Handler Env) (rw : Z)
    (ops : list LifecycleOp) (prop_id : N) (value : GValue)
    (self : GtkWindowButtonsQuartz) (env : Env) :
  let klass := gtk_window_buttons_quartz_class_init rw in
  read_after h klass ops prop_id value self env
  = value_of h (get_property klass prop_id value) self
      (env_after h (lifecycle klass ops) self env).
Proof.
  intros klass. unfold read_after. rewrite value_of_bind.
  unfold klass. rewrite lifecycle_keeps_self. reflexivity.
Qed.

Lemma constructed_flags {Env : Type} (h : Handler Env) (rw : Z)
    (params : list (string * bool)) (env : Env) :
  constructed h (gtk_window_buttons_quartz_class_init rw) params env
  = {| close := option_or true "close" params;
       minimize := option_or true "minimize" params;
       maximize := option_or true "maximize" params |}.
Proof.
  unfold constructed. rewrite g_object_new_flags. reflexivity.
Qed.

(** C6. For each of the eight ways to construct the widget with flags
    (close, minimize, maximize), and whatever realize, unrealize, measure
    and size-allocate calls follow, in any order and against any toolkit,
    the getter then reads back exactly the constructed close, minimize and
    maximize; and from any instance at all, such a sequence leaves the
    instance struct as it found it. *)
Theorem flags_fixed_at_construction :
  forall (Env : Type) (h : Handler Env) (rw : Z) (c mi ma : bool)
         (ops : list LifecycleOp) (value : GValue) (env0 env : Env),
    read_after h (gtk_window_buttons_quartz_class_init rw) ops PROP_CLOSE value
      (constructed h (gtk_window_buttons_quartz_class_init rw) (all_options c mi ma) env0)
      env = c
    /\ read_after h (gtk_window_buttons_quartz_class_init rw) ops PROP_MINIMIZE value
         (constructed h (gtk_window_buttons_quartz_class_init rw) (all_options c mi ma) env0)
         env = mi
    /\ read_after h (gtk_window_buttons_quartz_class_init rw) ops PROP_MAXIMIZE value
         (constructed h (gtk_window_buttons_quartz_class_init rw) (all_options c mi ma) env0)
         env = ma
    /\ forall self : GtkWindowButtonsQuartz,
        self_after h (lifecycle (gtk_window_buttons_quartz_class_init rw) ops) self env
        = self.
Proof.
  intros Env h rw c mi ma ops value env0 env.
  rewrite constructed_flags, !read_after_lifecycle.
  repeat split. intros self. apply lifecycle_keeps_self.
Qed.

(** C8. An option the caller of the constructor leaves out is constructed
    to its declared default, true: after construction the getter reads, for
    each of close, minimize and maximize, the caller's value if one was
    given and true otherwise. *)
Theorem unspecified_options_default_to_true :
  forall (Env : Type) (h : Handler Env) (rw : Z) (params : list (string * bool))
         (value : GValue) (env0 env : Env),
    value_of h (get_property (gtk_window_buttons_quartz_class_init rw) PROP_CLOSE value)
      (constructed h (gtk_window_buttons_quartz_class_init rw) params env0) env
    = match find_param "close" params with Some v => v | None => true end
    /\ value_of h
         (get_property (gtk_window_buttons_quartz_class_init rw) PROP_MINIMIZE value)
         (constructed h (gtk_window_buttons_quartz_class_init rw) params env0) env
       = match find_param "minimize" params with Some v => v | None => true end
    /\ value_of h
         (get_property (gtk_window_buttons_quartz_class_init rw) PROP_MAXIMIZE value)
         (constructed h (gtk_window_buttons_quartz_class_init rw) params env0) env
       = match find_param "maximize" params with Some v => v | None => true end.
Proof.
  intros Env h rw params value env0 env.
  rewrite constructed_flags.
  exact (get_property_reads_field h rw value _ env).
Qed.

(** With nothing specified all three read true; with one option given the
    other two still do. *)
Example construct_with_no_option :
  constructed toolkit (gtk_window_buttons_quartz_class_init 227) [] (window None false)
  = {| close := true; minimize := true; maximize := true |}.
Proof. reflexivity. Qed.

Example construct_with_minimize_off :
  constructed toolkit (gtk_window_buttons_quartz_class_init 227)
    [("minimize"%string, false)] (window None false)
  = {| close := true; minimize := false; maximize := true |}.
Proof. reflexivity. Qed.

(** C9. The setter itself refuses nothing: on any instance and for any
    boolean [v], setting close, minimize or maximize stores [v] in that
    field, leaves the other two fields alone and raises no warning.  That
    the flags stay put after construction is left to the property system:
    every property the class installs is flagged construct-only. *)
Theorem set_property_overwrites_flag :
  forall (Env : Type) (h : Handler Env) (env : Env)
         (self : GtkWindowButtonsQuartz) (v : bool) (rw : Z),
    written h PROP_CLOSE v self env
    = {| close := v; minimize := minimize self; maximize := maximize self |}
    /\ written h PROP_MINIMIZE v self env
       = {| close := close self; minimize := v; maximize := maximize self |}
    /\ written h PROP_MAXIMIZE v self env
       = {| close := close self; minimize := minimize self; maximize := v |}
    /\ log_of h (gtk_window_buttons_quartz_set_property PROP_CLOSE v) self env = []
    /\ log_of h (gtk_window_buttons_quartz_set_property PROP_MINIMIZE v) self env = []
    /\ log_of h (gtk_window_buttons_quartz_set_property PROP_MAXIMIZE v) self env = []
    /\ forallb construct_only (props (gtk_window_buttons_quartz_class_init rw)) = true.
Proof.
  intros Env h env self v rw.
  do 6 (split; [reflexivity | ]).
  simpl. rewrite construct_only_is_set. reflexivity.
Qed.

(** ** Measure *)

(** C7. Measure answers minimum = natural = 28 for the vertical orientation
    and minimum = natural = 60 for the horizontal one, whatever [for_size],
    the instance and the toolkit are; it writes neither baseline and calls
    nothing. *)
Theorem measure_is_fixed :
  forall (Env : Type) (h : Handler Env) (env : Env) (self : GtkWindowButtonsQuartz)
         (for_size : Z) (out : Measurement),
    measured h GTK_ORIENTATION_VERTICAL for_size out self env
    = {| minimum := 28; natural := 28;
         minimum_baseline := minimum_baseline out;
         natural_baseline := natural_baseline out |}
    /\ measured h GTK_ORIENTATION_HORIZONTAL for_size out self env
       = {| minimum := 60; natural := 60;
            minimum_baseline := minimum_baseline out;
            natural_baseline := natural_baseline out |}
    /\ forall orientation : GtkOrientation,
        minimum (measured h orientation for_size out self env)
        = natural (measured h orientation for_size out self env)
        /\ log_of h (gtk_window_buttons_quartz_measure orientation for_size out) self env
           = [].
Proof.
  intros Env h env self for_size out.
  split; [reflexivity | split; [reflexivity | ]].
  intros orientation. case orientation; split; reflexivity.
Qed.

(** ** Property ids the switch does not know *)

(** X1. Reading a property id other than close, minimize and maximize (so
    also [PROP_0] and anything from [NUM_PROPERTIES] on) raises the
    invalid-property warning for that id, once, and nothing else: the
    [GValue] comes back as it was passed and the instance is not written. *)
Theorem get_property_unknown_id_warns :
  forall (Env : Type) (h : Handler Env) (env : Env) (self : GtkWindowButtonsQuartz)
         (prop_id : N) (value : GValue),
    prop_id <> PROP_CLOSE -> prop_id <> PROP_MINIMIZE -> prop_id <> PROP_MAXIMIZE ->
    calls (log_of h (gtk_window_buttons_quartz_get_property prop_id value) self env)
    = [G_OBJECT_WARN_INVALID_PROPERTY_ID prop_id]
    /\ value_of h (gtk_window_buttons_quartz_get_property prop_id value) self env = value
    /\ self_after h (gtk_window_buttons_quartz_get_property prop_id value) self env = self.
Proof.
  intros Env h env self prop_id value Hclose Hminimize Hmaximize.
  unfold gtk_window_buttons_quartz_get_property.
  apply N.eqb_neq in Hclose, Hminimize, Hmaximize.
  rewrite Hclose, Hminimize, Hmaximize.
  unfold log_of, value_of, self_after, run. cbn.
  destruct (h (G_OBJECT_WARN_INVALID_PROPERTY_ID prop_id) env) as [[] env1].
  repeat split.
Qed.

Lemma get_property_unknown_id_warns_witness :
  calls (log_of toolkit (gtk_window_buttons_quartz_get_property NUM_PROPERTIES false)
           {| close := true; minimize := true; maximize := true |} (window None false))
  = [G_OBJECT_WARN_INVALID_PROPERTY_ID NUM_PROPERTIES]
  /\ value_of toolkit (gtk_window_buttons_quartz_get_property NUM_PROPERTIES false)
       {| close := true; minimize := true; maximize := true |} (window None false) = false
  /\ self_after toolkit (gtk_window_buttons_quartz_get_property NUM_PROPERTIES false)
       {| close := true; minimize := true; maximize := true |} (window None false)
     = {| close := true; minimize := true; maximize := true |}.
Proof.
  apply (get_property_unknown_id_warns Toolkit toolkit (window None false)
           {| close := true; minimize := true; maximize := true |} NUM_PROPERTIES false).
  - unfold NUM_PROPERTIES, PROP_CLOSE. lia.
  - unfold NUM_PROPERTIES, PROP_MINIMIZE. lia.
  - unfold NUM_PROPERTIES, PROP_MAXIMIZE. lia.
Defined.

(** X2. Writing a property id other than close, minimize and maximize raises
    the invalid-property warning for that id, once, and stores nothing:
    all three flags keep their values. *)
Theorem set_property_unknown_id_warns :
  forall (Env : Type) (h : Handler Env) (env : Env) (self : GtkWindowButtonsQuartz)
         (prop_id : N) (value : GValue),
    prop_id <> PROP_CLOSE -> prop_id <> PROP_MINIMIZE -> prop_id <> PROP_MAXIMIZE ->
    calls (log_of h (gtk_window_buttons_quartz_set_property prop_id value) self env)
    = [G_OBJECT_WARN_INVALID_PROPERTY_ID prop_id]
    /\ written h prop_id value self env = self.
Proof.
  intros Env h env self prop_id value Hclose Hminimize Hmaximize.
  unfold written, gtk_window_buttons_quartz_set_property.
  apply N.eqb_neq in Hclose, Hminimize, Hmaximize.
  rewrite Hclose, Hminimize, Hmaximize.
  unfold log_of, self_after, run. cbn.
  destruct (h (G_OBJECT_WARN_INVALID_PROPERTY_ID prop_id) env) as [[] env1].
  split; reflexivity.
Qed.

Lemma set_property_unknown_id_warns_witness :
  calls (log_of toolkit (gtk_window_buttons_quartz_set_property PROP_0 false)
           {| close := true; minimize := true; maximize := true |} (window None false))
  = [G_OBJECT_WARN_INVALID_PROPERTY_ID PROP_0]
  /\ written toolkit PROP_0 false
       {| close := true; minimize := true; maximize := true |} (window None false)
     = {| close := true; minimize := true; maximize := true |}.
Proof.
  apply (set_property_unknown_id_warns Toolkit toolkit (window None false)
           {| close := true; minimize := true; maximize := true |} PROP_0 false).
  - unfold PROP_0, PROP_CLOSE. lia.
  - unfold PROP_0, PROP_MINIMIZE. lia.
  - unfold PROP_0, PROP_MAXIMIZE. lia.
Defined.

Lemma installed_ids (rw : Z) (prop_id : N) :
  installed (gtk_window_buttons_quartz_class_init rw) prop_id
  = (N.eqb prop_id PROP_CLOSE || N.eqb prop_id PROP_MINIMIZE || N.eqb prop_id PROP_MAXIMIZE)%bool.
Proof.
  unfold installed. cbn [props gtk_window_buttons_quartz_class_init].
  destruct prop_id as [| p]; [reflexivity | ].
  destruct p as [p | p | ]; [ | | reflexivity].
  - destruct p as [p | p | ]; [ | | reflexivity];
      replace (nth_error _ _) with (@None (option GParamSpec)); try reflexivity;
      symmetry; apply nth_error_None; cbn [List.length]; lia.
  - destruct p as [p | p | ]; [ | | reflexivity];
      replace (nth_error _ _) with (@None (option GParamSpec)); try reflexivity;
      symmetry; apply nth_error_None; cbn [List.length]; lia.
Qed.

(** X3. The two switches and the table [class_init] installs agree: for
    every property id, the getter and the setter raise the invalid-property
    warning exactly when the [props] array holds no pspec at that index, and
    raise nothing at an index that holds one. *)
Theorem switch_covers_installed_properties :
  forall (Env : Type) (h : Handler Env) (env : Env) (self : GtkWindowButtonsQuartz)
         (rw : Z) (prop_id : N) (value : GValue),
    warnings (log_of h (get_property (gtk_window_buttons_quartz_class_init rw) prop_id value)
                self env)
    = (if installed (gtk_window_buttons_quartz_class_init rw) prop_id
       then [] else [G_OBJECT_WARN_INVALID_PROPERTY_ID prop_id])
    /\ warnings
         (log_of h (set_property (gtk_window_buttons_quartz_class_init rw) prop_id value)
            self env)
       = (if installed (gtk_window_buttons_quartz_class_init rw) prop_id
          then [] else [G_OBJECT_WARN_INVALID_PROPERTY_ID prop_id]).
Proof.
  intros Env h env self rw prop_id value.
  rewrite installed_ids.
  cbn [get_property set_property gtk_window_buttons_quartz_class_init].
  unfold gtk_window_buttons_quartz_get_property, gtk_window_buttons_quartz_set_property.
  destruct (N.eqb prop_id PROP_CLOSE); [split; reflexivity | ].
  destruct (N.eqb prop_id PROP_MINIMIZE); [split; reflexivity | ].
  destruct (N.eqb prop_id PROP_MAXIMIZE); [split; reflexivity | ].
  unfold log_of, run. cbn.
  destruct (h (G_OBJECT_WARN_INVALID_PROPERTY_ID prop_id) env) as [[] env1].
  split; reflexivity.
Qed.

(** ** Writing, then reading *)

Lemma known_id_cases (prop_id : N) :
  (N.eqb prop_id PROP_CLOSE || N.eqb prop_id PROP_MINIMIZE || N.eqb prop_id PROP_MAXIMIZE)%bool
  = true ->
  prop_id = PROP_CLOSE \/ prop_id = PROP_MINIMIZE \/ prop_id = PROP_MAXIMIZE.
Proof.
  intros H. apply orb_true_iff in H. destruct H as [H | H].
  - apply orb_true_iff in H. destruct H as [H | H]; apply N.eqb_eq in H; auto.
  - apply N.eqb_eq in H. auto.
Qed.

(** X4. What the setter stores under an installed property id is what the
    getter reads back under the same id, whatever [GValue] the getter is
    handed; read under another installed id, the value is the one from
    before the write. *)
Theorem set_then_get_round_trip :
  forall (Env : Type) (h : Handler Env) (env : Env) (self : GtkWindowButtonsQuartz)
         (rw : Z) (prop_id other : N) (v : bool) (value : GValue),
    installed (gtk_window_buttons_quartz_class_init rw) prop_id = true ->
    installed (gtk_window_buttons_quartz_class_init rw) other = true ->
    other <> prop_id ->
    value_of h
      (gtk_window_buttons_quartz_set_property prop_id v ;;
       gtk_window_buttons_quartz_get_property prop_id value) self env = v
    /\ value_of h
         (gtk_window_buttons_quartz_set_property prop_id v ;;
          gtk_window_buttons_quartz_get_property other value) self env
       = value_of h (gtk_window_buttons_quartz_get_property other value) self env.
Proof.
  intros Env h env self rw prop_id other v value Hid Hother Hneq.
  rewrite installed_ids in Hid, Hother.
  apply known_id_cases in Hid, Hother.
  destruct Hid as [-> | [-> | ->]]; destruct Hother as [-> | [-> | ->]];
    try (exfalso; apply Hneq; reflexivity); split; reflexivity.
Qed.

Lemma set_then_get_round_trip_witness :
  value_of toolkit
    (gtk_window_buttons_quartz_set_property PROP_MINIMIZE false ;;
     gtk_window_buttons_quartz_get_property PROP_MINIMIZE true)
    {| close := true; minimize := true; maximize := true |} (window None false) = false
  /\ value_of toolkit
       (gtk_window_buttons_quartz_set_property PROP_MINIMIZE false ;;
        gtk_window_buttons_quartz_get_property PROP_CLOSE false)
       {| close := true; minimize := true; maximize := true |} (window None false)
     = value_of toolkit (gtk_window_buttons_quartz_get_property PROP_CLOSE false)
         {| close := true; minimize := true; maximize := true |} (window None false).
Proof.
  apply (set_then_get_round_trip Toolkit toolkit (window None false)
           {| close := true; minimize := true; maximize := true |}
           227 PROP_MINIMIZE PROP_CLOSE false true).
  - reflexivity.
  - reflexivity.
  - unfold PROP_CLOSE, PROP_MINIMIZE. lia.
Defined.

Lemma written_cases {Env : Type} (h : Handler Env) (env : Env)
    (self : GtkWindowButtonsQuartz) (prop_id : N) (v : bool) :
  written h prop_id v self env
  = if N.eqb prop_id PROP_CLOSE then set_close v self
    else if N.eqb prop_id PROP_MINIMIZE then set_minimize v self
    else if N.eqb prop_id PROP_MAXIMIZE then set_maximize v self
    else self.
Proof.
  unfold written, gtk_window_buttons_quartz_set_property.
  destruct (N.eqb prop_id PROP_CLOSE); [reflexivity | ].
  destruct (N.eqb prop_id PROP_MINIMIZE); [reflexivity | ].
  destruct (N.eqb prop_id PROP_MAXIMIZE); [reflexivity | ].
  unfold self_after, run. cbn.
  destruct (h (G_OBJECT_WARN_INVALID_PROPERTY_ID prop_id) env) as [[] env1].
  reflexivity.
Qed.

(** X5. Of two writes to one property id the later one decides: the instance
    ends up as if only the second write had been made, for every id, known
    to the switch or not, and against any toolkit, also one that changes
    state between the writes. *)
Theorem set_property_last_write_wins :
  forall (Env : Type) (h : Handler Env) (env env' : Env) (self : GtkWindowButtonsQuartz)
         (prop_id : N) (v1 v2 : bool),
    written h prop_id v2 (written h prop_id v1 self env) env'
    = written h prop_id v2 self env'.
Proof.
  intros Env h env env' self prop_id v1 v2.
  rewrite !written_cases.
  destruct (N.eqb prop_id PROP_CLOSE); [reflexivity | ].
  destruct (N.eqb prop_id PROP_MINIMIZE); [reflexivity | ].
  destruct (N.eqb prop_id PROP_MAXIMIZE); reflexivity.
Qed.

(** X6. Writes to two different property ids do not interfere: made in
    either order they leave the same instance. *)
Theorem set_property_distinct_ids_commute :
  forall (Env : Type) (h : Handler Env) (env env' : Env) (self : GtkWindowButtonsQuartz)
         (id1 id2 : N) (v1 v2 : bool),
    id1 <> id2 ->
    written h id2 v2 (written h id1 v1 self env) env'
    = written h id1 v1 (written h id2 v2 self env) env'.
Proof.
  intros Env h env env' self id1 id2 v1 v2 Hneq.
  rewrite !written_cases.
  repeat match goal with
         | |- context [N.eqb ?a ?b] => destruct (N.eqb_spec a b)
         end;
    try reflexivity; congruence.
Qed.

Lemma set_property_distinct_ids_commute_witness :
  written toolkit PROP_MAXIMIZE false
    (written toolkit PROP_CLOSE false
       {| close := true; minimize := true; maximize := true |} (window None false))
    (window None false)
  = written toolkit PROP_CLOSE false
      (written toolkit PROP_MAXIMIZE false
         {| close := true; minimize := true; maximize := true |} (window None false))
      (window None false).
Proof.
  apply (set_property_distinct_ids_commute Toolkit toolkit (window None false)
           (window None false) {| close := true; minimize := true; maximize := true |}
           PROP_CLOSE PROP_MAXIMIZE false false).
  unfold PROP_CLOSE, PROP_MAXIMIZE. lia.
Defined.

(** ** Unrealize off macOS *)

(** X7. When the surface handed to unrealize is not a macOS surface (or is
    [NULL]), unrealize makes no request of it: after the two lookups it
    goes straight to the base class unrealize, which is still called. *)
Theorem unrealize_inert_on_other_surface :
  forall (Env : Type) (h : Handler Env) (env : Env)
         (self : GtkWindowButtonsQuartz) (surface : option GdkSurface),
    surfaces_returned (unrealize_log h self env) = [surface] ->
    GDK_IS_MACOS_SURFACE surface = false ->
    surface_calls (unrealize_log h self env) = []
    /\ exists native : GtkNative,
        calls (unrealize_log h self env)
        = [gtk_widget_get_root; gtk_native_get_surface native; parent_class_unrealize].
Proof.
  intros Env h env self surface.
  unfold unrealize_log, log_of, run. cbn.
  destruct (h gtk_widget_get_root env) as [native env1]. cbn.
  destruct (h (gtk_native_get_surface native) env1) as [found env2]. cbn.
  destruct (GDK_IS_MACOS_SURFACE found) eqn:Hfound; cbn.
  - destruct (h (gdk_macos_surface_show_window_controls found false) env2)
      as [granted env3]. cbn.
    destruct (h parent_class_unrealize env3) as [[] env4]. cbn.
    intros [= <-] Hother. congruence.
  - destruct (h parent_class_unrealize env2) as [[] env3]. cbn.
    intros _ _. split; [reflexivity | ]. exists native. reflexivity.
Qed.

Lemma unrealize_inert_on_other_surface_witness :
  surface_calls
    (unrealize_log toolkit {| close := true; minimize := true; maximize := true |}
       (window None true)) = []
  /\ exists native : GtkNative,
      calls
        (unrealize_log toolkit {| close := true; minimize := true; maximize := true |}
           (window None true))
      = [gtk_widget_get_root; gtk_native_get_surface native; parent_class_unrealize].
Proof.
  apply (unrealize_inert_on_other_surface Toolkit toolkit (window None true)
           {| close := true; minimize := true; maximize := true |} None).
  - reflexivity.
  - reflexivity.
Defined.

(** ** What holds along any sequence of lifecycle operations *)

Lemma lifecycle_log_cons {Env : Type} (h : Handler Env) (klass : GtkWindowButtonsQuartzClass)
    (op : LifecycleOp) (ops : list LifecycleOp) (self : GtkWindowButtonsQuartz) (env : Env) :
  lifecycle_log h klass (op :: ops) self env
  = log_of h (dispatch klass op) self env
      ++ lifecycle_log h klass ops (self_after h (dispatch klass op) self env)
           (env_after h (dispatch klass op) self env).
Proof.
  unfold lifecycle_log. simpl lifecycle. apply log_of_bind.
Qed.

(** A check that every single operation passes on each of its calls is
    passed by every call of a sequence. *)
Lemma lifecycle_calls_forall {Env : Type} (h : Handler Env)
    (klass : GtkWindowButtonsQuartzClass) (check : ExtCall -> bool) :
  (forall op self env, forallb check (calls (log_of h (dispatch klass op) self env)) = true) ->
  forall ops self env, forallb check (calls (lifecycle_log h klass ops self env)) = true.
Proof.
  intros Hop ops. induction ops as [| op ops IH]; intros self env.
  - reflexivity.
  - rewrite lifecycle_log_cons. unfold calls. rewrite map_app, forallb_app.
    apply andb_true_intro. split.
    + apply Hop.
    + apply IH.
Qed.

Ltac run_dispatch h op :=
  destruct op as [ | | orientation ? ? | ? ? ?]; [ | | destruct orientation | ];
  cbn [dispatch realize unrealize measure size_allocate
         gtk_window_buttons_quartz_class_init];
  unfold log_of, run; cbn; repeat step h.

(** X8. Along any sequence of realize, unrealize, measure and size-allocate
    calls, against any toolkit, every request the widget makes of a surface
    (show, enable, set height) goes to a surface that passed the macOS
    instance check: a [NULL] surface or one of another backend is never
    handed to the [GdkMacosSurface] functions. *)
Theorem lifecycle_requests_only_macos_surfaces :
  forall (Env : Type) (h : Handler Env) (rw : Z) (ops : list LifecycleOp)
         (self : GtkWindowButtonsQuartz) (env : Env),
    forallb on_macos_surface
      (calls (lifecycle_log h (gtk_window_buttons_quartz_class_init rw) ops self env))
    = true.
Proof.
  intros Env h rw. apply lifecycle_calls_forall.
  intros op self env.
  run_dispatch h op;
    repeat match goal with
           | H : GDK_IS_MACOS_SURFACE _ = true |- _ => rewrite H
           end;
    reflexivity.
Qed.

(** X9. Along any such sequence, every height the widget passes to
    [setWindowControlsHeight] is greater than zero. *)
Theorem lifecycle_heights_are_positive :
  forall (Env : Type) (h : Handler Env) (rw : Z) (ops : list LifecycleOp)
         (self : GtkWindowButtonsQuartz) (env : Env),
    forallb height_is_positive
      (calls (lifecycle_log h (gtk_window_buttons_quartz_class_init rw) ops self env))
    = true.
Proof.
  intros Env h rw. apply lifecycle_calls_forall.
  intros op self env.
  run_dispatch h op;
    repeat match goal with
           | H : (_ >? 0) = true |- _ => rewrite H
           end;
    reflexivity.
Qed.

(** X10. No sequence of lifecycle operations raises the invalid-property
    warning: the lifecycle never goes through the property switch. *)
Theorem lifecycle_never_warns :
  forall (Env : Type) (h : Handler Env) (rw : Z) (ops : list LifecycleOp)
         (self : GtkWindowButtonsQuartz) (env : Env),
    warnings (lifecycle_log h (gtk_window_buttons_quartz_class_init rw) ops self env) = [].
Proof.
  intros Env h rw ops. induction ops as [| op ops IH]; intros self env.
  - reflexivity.
  - rewrite lifecycle_log_cons. unfold warnings, calls in *.
    rewrite map_app, filter_app, IH, app_nil_r.
    run_dispatch h op; reflexivity.
Qed.

Lemma times_app (kind : ExtCall -> bool) (log1 log2 : list Entry) :
  times kind (log1 ++ log2) = (times kind log1 + times kind log2)%nat.
Proof.
  unfold times, calls. rewrite map_app, filter_app. apply length_app.
Qed.

Lemma granted_shows_app (log1 log2 : list Entry) :
  granted_shows (log1 ++ log2) = (granted_shows log1 + granted_shows log2)%nat.
Proof.
  unfold granted_shows. rewrite filter_app. apply length_app.
Qed.

(** X11. Along any sequence of lifecycle operations the controls are
    enabled as many times as a request to show them was granted:
    [enableWindowControls] is called once for each
    [showWindowControls (surface, TRUE)] that returned true, and never
    for a request that was refused or for a request to hide. *)
Theorem lifecycle_enables_once_per_granted_show :
  forall (Env : Type) (h : Handler Env) (rw : Z) (ops : list LifecycleOp)
         (self : GtkWindowButtonsQuartz) (env : Env),
    times is_enable_window_controls
      (lifecycle_log h (gtk_window_buttons_quartz_class_init rw) ops self env)
    = granted_shows
        (lifecycle_log h (gtk_window_buttons_quartz_class_init rw) ops self env).
Proof.
  intros Env h rw ops. induction ops as [| op ops IH]; intros self env.
  - reflexivity.
  - rewrite lifecycle_log_cons, times_app, granted_shows_app, IH.
    f_equal.
    run_dispatch h op; reflexivity.
Qed.

(** X12. Realize, unrealize and size-allocate each chain up to the parent
    class exactly once, and measure not at all: along any sequence the
    number of parent-class calls is the number of operations other than
    measure. *)
Theorem lifecycle_chains_up_once_per_operation :
  forall (Env : Type) (h : Handler Env) (rw : Z) (ops : list LifecycleOp)
         (self : GtkWindowButtonsQuartz) (env : Env),
    times is_parent_call
      (lifecycle_log h (gtk_window_buttons_quartz_class_init rw) ops self env)
    = List.length (filter chains_up ops).
Proof.
  intros Env h rw ops. induction ops as [| op ops IH]; intros self env.
  - reflexivity.
  - rewrite lifecycle_log_cons, times_app, IH.
    assert (Hop : times is_parent_call
                    (log_of h (dispatch (gtk_window_buttons_quartz_class_init rw) op)
                       self env)
                  = if chains_up op then 1%nat else 0%nat).
    { run_dispatch h op; reflexivity. }
    rewrite Hop. simpl filter. destruct (chains_up op); reflexivity.
Qed.

(** * The settings viewer demo: what the callbacks do *)
Module ListviewSettingsFacts.

Import ListviewSettings.
Local Open Scope string_scope.
Local Open Scope list_scope.
Local Open Scope settings_scope.

Lemma settings_exec_bind {Env A B : Type} (h : Handler Env) (p : Prog A) (f : A -> Prog B) :
  forall env,
    exec h (prog_bind p f) env =
    (fst (fst (exec h (f (fst (fst (exec h p env)))) (snd (fst (exec h p env))))),
     snd (fst (exec h (f (fst (fst (exec h p env)))) (snd (fst (exec h p env))))),
     snd (exec h p env)
       ++ snd (exec h (f (fst (fst (exec h p env)))) (snd (fst (exec h p env))))).
Proof.
  induction p as [r | c k IH]; intros env; simpl.
  - destruct (exec h (f r) env) as [[b env'] log]. reflexivity.
  - rewrite IH. reflexivity.
Qed.

Lemma settings_log_of_bind {Env A B : Type} (h : Handler Env) (m : M A) (f : A -> M B)
    (g : Globals) (env : Env) :
  log_of h (bind m f) g env
  = log_of h m g env
      ++ log_of h (f (value_of h m g env)) (globals_after h m g env) (env_after h m g env).
Proof.
  unfold log_of, value_of, globals_after, env_after, bind.
  rewrite settings_exec_bind. reflexivity.
Qed.

Lemma settings_value_of_bind {Env A B : Type} (h : Handler Env) (m : M A) (f : A -> M B)
    (g : Globals) (env : Env) :
  value_of h (bind m f) g env
  = value_of h (f (value_of h m g env)) (globals_after h m g env) (env_after h m g env).
Proof.
  unfold value_of, globals_after, env_after, bind.
  rewrite settings_exec_bind. reflexivity.
Qed.

Lemma settings_globals_after_bind {Env A B : Type} (h : Handler Env) (m : M A)
    (f : A -> M B) (g : Globals) (env : Env) :
  globals_after h (bind m f) g env
  = globals_after h (f (value_of h m g env)) (globals_after h m g env) (env_after h m g env).
Proof.
  unfold value_of, globals_after, env_after, bind.
  rewrite settings_exec_bind. reflexivity.
Qed.

Lemma settings_env_after_bind {Env A B : Type} (h : Handler Env) (m : M A)
    (f : A -> M B) (g : Globals) (env : Env) :
  env_after h (bind m f) g env
  = env_after h (f (value_of h m g env)) (globals_after h m g env) (env_after h m g env).
Proof.
  unfold value_of, globals_after, env_after, bind.
  rewrite settings_exec_bind. reflexivity.
Qed.

Lemma collect_app {A B : Type} (f : A -> option B) (l1 l2 : list A) :
  collect f (l1 ++ l2) = collect f l1 ++ collect f l2.
Proof.
  induction l1 as [| x l1 IH]; simpl.
  - reflexivity.
  - destruct (f x); simpl; rewrite IH; reflexivity.
Qed.

(** One step of a callback: the next answer, or the next test it makes. *)
Ltac callback_step h :=
  match goal with
  | |- context [h ?c ?env] => destruct (h c env) as [? ?]; cbn
  | |- context [match ?r with parsed _ => _ | parse_error _ => _ end] =>
      is_var r; destruct r; cbn
  | |- context [if negb ?b then _ else _] => is_var b; destruct b; cbn
  | |- context [if ?b then _ else _] => is_var b; destruct b; cbn
  end.

Ltac run_callback h := unfold log_of, value_of, globals_after; cbn; repeat callback_step h.

(** ** The editable value cell *)

(** X13. While the label is still being edited, the value-changed callback
    does nothing: once it has learnt that, it makes no further call, so no
    setting is written and the text is left alone. *)
Theorem item_value_changed_while_editing :
  forall (Env : Type) (h : Handler Env) (env : Env) (g : Globals) (label pspec cell : N),
    editing_answers (log_of h (item_value_changed label pspec cell) g env) = [true] ->
    calls (log_of h (item_value_changed label pspec cell) g env)
    = [gtk_editable_label_get_editing label]
    /\ globals_after h (item_value_changed label pspec cell) g env = g.
Proof.
  intros Env h env g label pspec cell.
  run_callback h; intros Hediting; try discriminate Hediting; split; reflexivity.
Qed.

Lemma item_value_changed_while_editing_witness :
  calls (log_of session (item_value_changed 1 2 3) no_filter (a_session true "7" None []))
  = [gtk_editable_label_get_editing 1]
  /\ globals_after session (item_value_changed 1 2 3) no_filter (a_session true "7" None [])
     = no_filter.
Proof.
  apply (item_value_changed_while_editing Session session (a_session true "7" None [])
           no_filter 1%N 2%N 3%N).
  reflexivity.
Defined.

(** X14. When editing is over, the text parses and the parsed value passes
    the key's range check, the callback writes the setting exactly once:
    the parsed variant, under the name of the key, to the settings object
    of the cell's item.  It then drops its reference to the variant, and
    neither warns, rings the bell nor touches the label's text. *)
Theorem item_value_changed_stores_valid_value :
  forall (Env : Type) (h : Handler Env) (env : Env) (g : Globals) (label pspec cell : N)
         (variant : N),
    editing_answers (log_of h (item_value_changed label pspec cell) g env) = [false] ->
    parse_results (log_of h (item_value_changed label pspec cell) g env) = [parsed variant] ->
    range_checks (log_of h (item_value_changed label pspec cell) g env) = [true] ->
    exists (self : N) (name : string) (settings : N),
      items_returned (log_of h (item_value_changed label pspec cell) g env) = [self]
      /\ key_names_returned (log_of h (item_value_changed label pspec cell) g env) = [name]
      /\ settings_returned (log_of h (item_value_changed label pspec cell) g env)
         = [settings]
      /\ In (settings_key_get_settings self)
            (calls (log_of h (item_value_changed label pspec cell) g env))
      /\ actions (log_of h (item_value_changed label pspec cell) g env)
         = [g_settings_set_value settings name variant; g_variant_unref variant].
Proof.
  intros Env h env g label pspec cell variant.
  run_callback h; intros Hediting Hparse Hrange;
    try discriminate Hediting; try discriminate Hparse; try discriminate Hrange.
  injection Hparse as ->.
  do 3 eexists. repeat split. simpl. tauto.
Qed.

Lemma item_value_changed_stores_valid_value_witness :
  exists (self : N) (name : string) (settings : N),
    items_returned
      (log_of session (item_value_changed 1 2 3) no_filter (a_session false "7" None []))
    = [self]
    /\ key_names_returned
         (log_of session (item_value_changed 1 2 3) no_filter (a_session false "7" None []))
       = [name]
    /\ settings_returned
         (log_of session (item_value_changed 1 2 3) no_filter (a_session false "7" None []))
       = [settings]
    /\ In (settings_key_get_settings self)
          (calls
             (log_of session (item_value_changed 1 2 3) no_filter
                (a_session false "7" None [])))
    /\ actions
         (log_of session (item_value_changed 1 2 3) no_filter (a_session false "7" None []))
       = [g_settings_set_value settings name 1; g_variant_unref 1].
Proof.
  apply (item_value_changed_stores_valid_value Session session
           (a_session false "7" None []) no_filter 1%N 2%N 3%N 1%N).
  - reflexivity.
  - reflexivity.
  - reflexivity.
Defined.

(** X15. When editing is over and the text does not parse, the callback
    writes no setting.  It warns with the parser's message, clears the
    error, rings the error bell on the label and puts the stored value of
    the item back into the label, freeing its copy of that value. *)
Theorem item_value_changed_unparsable_reverts :
  forall (Env : Type) (h : Handler Env) (env : Env) (g : Globals) (label pspec cell : N)
         (message : string),
    editing_answers (log_of h (item_value_changed label pspec cell) g env) = [false] ->
    parse_results (log_of h (item_value_changed label pspec cell) g env)
    = [parse_error message] ->
    exists value : string,
      values_returned (log_of h (item_value_changed label pspec cell) g env) = [value]
      /\ actions (log_of h (item_value_changed label pspec cell) g env)
         = [g_warning message; g_clear_error message;
            gtk_widget_error_bell label;
            gtk_editable_set_text label value;
            g_free (string_ptr value)].
Proof.
  intros Env h env g label pspec cell message.
  run_callback h; intros Hediting Hparse;
    try discriminate Hediting; try discriminate Hparse.
  injection Hparse as ->.
  eexists. split; reflexivity.
Qed.

Lemma item_value_changed_unparsable_reverts_witness :
  exists value : string,
    values_returned
      (log_of session (item_value_changed 1 2 3) no_filter
         (a_session false EmptyString None [])) = [value]
    /\ actions
         (log_of session (item_value_changed 1 2 3) no_filter
            (a_session false EmptyString None []))
       = [g_warning "empty"; g_clear_error "empty";
          gtk_widget_error_bell 1;
          gtk_editable_set_text 1 value;
          g_free (string_ptr value)].
Proof.
  apply (item_value_changed_unparsable_reverts Session session
           (a_session false EmptyString None []) no_filter 1%N 2%N 3%N "empty").
  - reflexivity.
  - reflexivity.
Defined.

(** X16. When editing is over and the text parses to a value outside the
    key's range, the callback writes no setting.  It warns that the value
    is not valid for the key, by name, rings the error bell and puts the
    stored value back into the label.  On this path the parsed variant is
    not unreferenced. *)
Theorem item_value_changed_out_of_range_reverts :
  forall (Env : Type) (h : Handler Env) (env : Env) (g : Globals) (label pspec cell : N)
         (variant : N),
    editing_answers (log_of h (item_value_changed label pspec cell) g env) = [false] ->
    parse_results (log_of h (item_value_changed label pspec cell) g env) = [parsed variant] ->
    range_checks (log_of h (item_value_changed label pspec cell) g env) = [false] ->
    exists (name value : string),
      key_names_returned (log_of h (item_value_changed label pspec cell) g env) = [name]
      /\ values_returned (log_of h (item_value_changed label pspec cell) g env) = [value]
      /\ actions (log_of h (item_value_changed label pspec cell) g env)
         = [g_warning ("Not a valid value for " ++ name)%string;
            gtk_widget_error_bell label;
            gtk_editable_set_text label value;
            g_free (string_ptr value)].
Proof.
  intros Env h env g label pspec cell variant.
  run_callback h; intros Hediting Hparse Hrange;
    try discriminate Hediting; try discriminate Hparse; try discriminate Hrange.
  do 2 eexists. repeat split.
Qed.

Lemma item_value_changed_out_of_range_reverts_witness :
  exists (name value : string),
    key_names_returned
      (log_of session (item_value_changed 1 2 3) no_filter
         (a_session false "12345" None [])) = [name]
    /\ values_returned
         (log_of session (item_value_changed 1 2 3) no_filter
            (a_session false "12345" None [])) = [value]
    /\ actions
         (log_of session (item_value_changed 1 2 3) no_filter
            (a_session false "12345" None []))
       = [g_warning ("Not a valid value for " ++ name)%string;
          gtk_widget_error_bell 1;
          gtk_editable_set_text 1 value;
          g_free (string_ptr value)].
Proof.
  apply (item_value_changed_out_of_range_reverts Session session
           (a_session false "12345" None []) no_filter 1%N 2%N 3%N 5%N).
  - reflexivity.
  - reflexivity.
  - reflexivity.
Defined.

(** ** Sorting the schema names *)

Lemma strvcmp_total (a b : string) : (strvcmp a b <= 0)%Z \/ (strvcmp b a <= 0)%Z.
Proof.
  unfold strvcmp, strcmp. rewrite (String.compare_antisym a b).
  destruct (String.compare b a); simpl; lia.
Qed.

Section SortBy.

Context {A : Type} (compar : A -> A -> Z).
Hypothesis compar_total : forall a b, (compar a b <= 0)%Z \/ (compar b a <= 0)%Z.

Lemma insert_sorted_permutation (x : A) (l : list A) :
  Permutation (x :: l) (insert_sorted compar x l).
Proof.
  induction l as [| y l IH]; simpl.
  - apply Permutation_refl.
  - destruct (compar x y <=? 0)%Z.
    + apply Permutation_refl.
    + apply perm_trans with (y :: x :: l); [apply perm_swap | ].
      apply perm_skip, IH.
Qed.

Lemma sort_by_permutation (l : list A) : Permutation l (sort_by compar l).
Proof.
  induction l as [| x l IH]; simpl.
  - apply perm_nil.
  - apply perm_trans with (x :: sort_by compar l).
    + apply perm_skip, IH.
    + apply insert_sorted_permutation.
Qed.

Lemma insert_sorted_hd (x y : A) (l : list A) :
  (compar y x <= 0)%Z ->
  HdRel (fun a b => (compar a b <= 0)%Z) y l ->
  HdRel (fun a b => (compar a b <= 0)%Z) y (insert_sorted compar x l).
Proof.
  intros Hyx Hhd. destruct l as [| z l]; simpl.
  - constructor. assumption.
  - destruct (compar x z <=? 0)%Z; constructor.
    + assumption.
    + inversion Hhd. assumption.
Qed.

Lemma insert_sorted_sorted (x : A) (l : list A) :
  Sorted (fun a b => (compar a b <= 0)%Z) l ->
  Sorted (fun a b => (compar a b <= 0)%Z) (insert_sorted compar x l).
Proof.
  induction 1 as [| y l Hsorted IH Hhd]; simpl.
  - repeat constructor.
  - destruct (compar x y <=? 0)%Z eqn:Hxy.
    + apply Z.leb_le in Hxy. repeat constructor; assumption.
    + apply Z.leb_gt in Hxy. constructor; [assumption | ].
      apply insert_sorted_hd; [ | assumption].
      destruct (compar_total y x); [assumption | lia].
Qed.

Lemma sort_by_sorted (l : list A) :
  Sorted (fun a b => (compar a b <= 0)%Z) (sort_by compar l).
Proof.
  induction l as [| x l IH]; simpl.
  - constructor.
  - apply insert_sorted_sorted, IH.
Qed.

Lemma qsort_whole_array (l : list A) : qsort l (List.length l) compar = sort_by compar l.
Proof.
  unfold qsort. rewrite firstn_all, skipn_all. apply app_nil_r.
Qed.

End SortBy.

(** ** The tree of schemas *)

Lemma log_of_call_bind {Env B : Type} (h : Handler Env) (c : Ext) (f : Answer c -> M B)
    (g : Globals) (env : Env) :
  log_of h (bind (call c) f) g env
  = Called c (fst (h c env)) :: log_of h (f (fst (h c env))) g (snd (h c env)).
Proof.
  rewrite settings_log_of_bind. reflexivity.
Qed.

Lemma value_of_call_bind {Env B : Type} (h : Handler Env) (c : Ext) (f : Answer c -> M B)
    (g : Globals) (env : Env) :
  value_of h (bind (call c) f) g env = value_of h (f (fst (h c env))) g (snd (h c env)).
Proof.
  rewrite settings_value_of_bind. reflexivity.
Qed.

(** The loop asks for one child per name, in order, appends each child it
    gets to [result] and drops its reference; it does nothing else. *)
Lemma append_children_log {Env : Type} (h : Handler Env) (result : N) (item : option N)
    (schemas : list string) :
  forall (g : Globals) (env : Env),
    children_requested (log_of h (append_children result item schemas) g env)
    = map (pair item) schemas
    /\ appended (log_of h (append_children result item schemas) g env)
       = map (pair result)
           (children_returned (log_of h (append_children result item schemas) g env))
    /\ unreffed (log_of h (append_children result item schemas) g env)
       = children_returned (log_of h (append_children result item schemas) g env)
    /\ List.length (children_returned (log_of h (append_children result item schemas) g env))
       = List.length schemas
    /\ listings (log_of h (append_children result item schemas) g env) = []
    /\ stores_returned (log_of h (append_children result item schemas) g env) = []
    /\ freed (log_of h (append_children result item schemas) g env) = []
    /\ strv_freed (log_of h (append_children result item schemas) g env) = [].
Proof.
  induction schemas as [| schema rest IH]; intros g env.
  - repeat split.
  - unfold children_requested, appended, unreffed, children_returned, listings,
      stores_returned, freed, strv_freed, answers, requests, log_of in *.
    destruct item as [parent | ]; cbn.
    + destruct (h (g_settings_get_child parent schema) env) as [child env1]. cbn.
      destruct (h (g_list_store_append result child) env1) as [[] env2]. cbn.
      destruct (h (g_object_unref child) env2) as [[] env3]. cbn.
      destruct (IH g env3) as (Hreq & Happ & Hunref & Hlen & Hlist & Hstore & Hfree & Hstrv).
      repeat split; cbn; try assumption; f_equal; assumption.
    + destruct (h (g_settings_new schema) env) as [child env1]. cbn.
      destruct (h (g_list_store_append result child) env1) as [[] env2]. cbn.
      destruct (h (g_object_unref child) env2) as [[] env3]. cbn.
      destruct (IH g env3) as (Hreq & Happ & Hunref & Hlen & Hlist & Hstore & Hfree & Hstrv).
      repeat split; cbn; try assumption; f_equal; assumption.
Qed.

Lemma log_of_ret {Env A : Type} (h : Handler Env) (a : A) (g : Globals) (env : Env) :
  log_of h (ret a) g env = [].
Proof. reflexivity. Qed.

(** The part of [create_settings_model] that runs once schema names are
    there: make the store, fill it, free the names. *)
Lemma fill_store_log {Env : Type} (h : Handler Env) (item : option N)
    (names : list string) (g : Globals) (env : Env) :
  exists store : N,
    value_of h
      (result <- call (g_list_store_new G_TYPE_SETTINGS) ;;
       append_children result item names ;;
       call (g_strfreev names) ;;
       ret (Some result)) g env = Some store
    /\ forall log : list Entry,
        log = log_of h
                (result <- call (g_list_store_new G_TYPE_SETTINGS) ;;
                 append_children result item names ;;
                 call (g_strfreev names) ;;
                 ret (Some result)) g env ->
        stores_returned log = [store]
        /\ children_requested log = map (pair item) names
        /\ appended log = map (pair store) (children_returned log)
        /\ unreffed log = children_returned log
        /\ List.length (children_returned log) = List.length names
        /\ listings log = []
        /\ freed log = []
        /\ strv_freed log = [names].
Proof.
  rewrite value_of_call_bind, log_of_call_bind.
  destruct (h (g_list_store_new G_TYPE_SETTINGS) env) as [store env1]. cbn [fst snd].
  exists store. split.
  - rewrite settings_value_of_bind, value_of_call_bind. reflexivity.
  - intros log ->.
    rewrite settings_log_of_bind, log_of_call_bind, log_of_ret.
    destruct (append_children_log h store item names g env1)
      as (Hreq & Happ & Hunref & Hlen & Hlist & Hstore & Hfree & Hstrv).
    set (loop := log_of h (append_children store item names) g env1) in *.
    unfold stores_returned, children_requested, appended, unreffed, children_returned,
      listings, freed, strv_freed, answers, requests in *.
    cbn [collect call_of answer_of]. rewrite !collect_app.
    rewrite Hreq, Happ, Hunref, Hlist, Hstore, Hfree, Hstrv.
    cbn [collect call_of answer_of app]. rewrite !app_nil_r.
    repeat split. assumption.
Qed.

Lemma log_of_call {Env : Type} (h : Handler Env) (c : Ext) (g : Globals) (env : Env) :
  log_of h (call c) g env = [Called c (fst (h c env))].
Proof. reflexivity. Qed.

(** [create_settings_model] first lists: the schemas of the default source
    at the top level, the children of [item] below it.  What it goes on to
    do depends on the array it was given. *)
Lemma create_settings_model_lists {Env : Type} (h : Handler Env) (env : Env) (g : Globals)
    (item unused : option N) :
  exists (schemas : option (list string)) (env1 : Env) (listing : list Entry),
    log_of h (create_settings_model item unused) g env
    = listing ++ log_of h (match schemas with
          | None => call (g_free (strv_ptr schemas)) ;; ret None
          | Some [] => call (g_free (strv_ptr schemas)) ;; ret None
          | Some (first :: others) =>
              result <- call (g_list_store_new G_TYPE_SETTINGS) ;;
              append_children result item
                (qsort (first :: others) (g_strv_length (first :: others)) strvcmp) ;;
              call (g_strfreev
                      (qsort (first :: others) (g_strv_length (first :: others)) strvcmp)) ;;
              ret (Some result)
          end) g env1
    /\ value_of h (create_settings_model item unused) g env
       = value_of h (match schemas with
          | None => call (g_free (strv_ptr schemas)) ;; ret None
          | Some [] => call (g_free (strv_ptr schemas)) ;; ret None
          | Some (first :: others) =>
              result <- call (g_list_store_new G_TYPE_SETTINGS) ;;
              append_children result item
                (qsort (first :: others) (g_strv_length (first :: others)) strvcmp) ;;
              call (g_strfreev
                      (qsort (first :: others) (g_strv_length (first :: others)) strvcmp)) ;;
              ret (Some result)
          end) g env1
    /\ listings listing = [schemas]
    /\ stores_returned listing = []
    /\ children_requested listing = []
    /\ children_returned listing = []
    /\ appended listing = []
    /\ unreffed listing = []
    /\ freed listing = []
    /\ strv_freed listing = [].
Proof.
  unfold create_settings_model.
  rewrite settings_log_of_bind, settings_value_of_bind.
  destruct item as [settings | ].
  - unfold log_of, value_of, globals_after, env_after. cbn [call exec fst snd].
    destruct (h (g_settings_list_children settings) env) as [schemas env1].
    cbn [fst snd].
    exists schemas, env1, [Called (g_settings_list_children settings) schemas].
    repeat split.
  - unfold log_of, value_of, globals_after, env_after.
    cbn [call bind prog_bind exec fst snd].
    destruct (h g_settings_schema_source_get_default env) as [source env0].
    cbn [call bind prog_bind exec fst snd].
    destruct (h (g_settings_schema_source_list_schemas source true) env0)
      as [schemas env1].
    cbn [fst snd].
    exists schemas, env1,
      [Called g_settings_schema_source_get_default source;
       Called (g_settings_schema_source_list_schemas source true) schemas].
    repeat split.
Qed.

Ltac split_observers :=
  unfold stores_returned, children_requested, appended, unreffed, children_returned,
    listings, freed, strv_freed, answers, requests in *;
  rewrite ?collect_app in *.

(** X17. When the listing comes back [NULL] or empty, [create_settings_model]
    returns [NULL]: it frees the array, once, and creates neither a store nor
    a child. *)
Theorem create_settings_model_without_schemas :
  forall (Env : Type) (h : Handler Env) (env : Env) (g : Globals) (item unused : option N)
         (schemas : option (list string)),
    listings (log_of h (create_settings_model item unused) g env) = [schemas] ->
    schemas = None \/ schemas = Some [] ->
    value_of h (create_settings_model item unused) g env = None
    /\ freed (log_of h (create_settings_model item unused) g env) = [strv_ptr schemas]
    /\ strv_freed (log_of h (create_settings_model item unused) g env) = []
    /\ stores_returned (log_of h (create_settings_model item unused) g env) = []
    /\ children_requested (log_of h (create_settings_model item unused) g env) = [].
Proof.
  intros Env h env g item unused schemas Hlisted Hempty.
  destruct (create_settings_model_lists h env g item unused)
    as (found & env1 & listing & Hlog & Hvalue & Hl & Hs & Hq & Hr & Ha & Hu & Hf & Hv).
  rewrite Hlog in *. rewrite Hvalue. clear Hlog Hvalue.
  destruct found as [[| first others] | ].
  - cbv beta iota in *.
    change (log_of h (call (g_free (strv_ptr (Some []))) ;; ret None) g env1)
      with [Called (g_free (strv_ptr (Some []))) (fst (h (g_free (strv_ptr (Some []))) env1))] in *.
    change (value_of h (call (g_free (strv_ptr (Some []))) ;; ret None) g env1)
      with (@None N).
    split_observers. rewrite Hl, ?Hs, ?Hq, ?Hf, ?Hv in *. cbn in Hlisted |- *.
    injection Hlisted as <-. repeat split.
  - cbv beta iota in *.
    destruct (fill_store_log h item
                (qsort (first :: others) (g_strv_length (first :: others)) strvcmp) g env1)
      as (store & _ & Hfill).
    destruct (Hfill _ eq_refl) as (_ & _ & _ & _ & _ & Hnone & _).
    split_observers. rewrite Hl, Hnone in Hlisted. cbn in Hlisted.
    injection Hlisted as <-. destruct Hempty; discriminate.
  - cbv beta iota in *.
    change (log_of h (call (g_free (strv_ptr None)) ;; ret None) g env1)
      with [Called (g_free (strv_ptr None)) (fst (h (g_free (strv_ptr None)) env1))] in *.
    change (value_of h (call (g_free (strv_ptr None)) ;; ret None) g env1)
      with (@None N).
    split_observers. rewrite Hl, ?Hs, ?Hq, ?Hf, ?Hv in *. cbn in Hlisted |- *.
    injection Hlisted as <-. repeat split.
Qed.

Lemma create_settings_model_with_schemas {Env : Type} (h : Handler Env) (env : Env)
    (g : Globals) (item unused : option N) (names : list string) :
  listings (log_of h (create_settings_model item unused) g env) = [Some names] ->
  names <> [] ->
  exists store : N,
    value_of h (create_settings_model item unused) g env = Some store
    /\ stores_returned (log_of h (create_settings_model item unused) g env) = [store]
    /\ children_requested (log_of h (create_settings_model item unused) g env)
       = map (pair item) (sort_by strvcmp names)
    /\ appended (log_of h (create_settings_model item unused) g env)
       = map (pair store)
           (children_returned (log_of h (create_settings_model item unused) g env))
    /\ unreffed (log_of h (create_settings_model item unused) g env)
       = children_returned (log_of h (create_settings_model item unused) g env)
    /\ List.length (children_returned (log_of h (create_settings_model item unused) g env))
       = List.length names
    /\ freed (log_of h (create_settings_model item unused) g env) = []
    /\ strv_freed (log_of h (create_settings_model item unused) g env)
       = [sort_by strvcmp names].
Proof.
  intros Hlisted Hnames.
  destruct (create_settings_model_lists h env g item unused)
    as (found & env1 & listing & Hlog & Hvalue & Hl & Hs & Hq & Hr & Ha & Hu & Hf & Hv).
  rewrite Hlog in *. rewrite Hvalue. clear Hlog Hvalue.
  destruct found as [[| first others] | ]; cbv beta iota in *.
  - change (log_of h (call (g_free (strv_ptr (Some []))) ;; ret None) g env1)
      with [Called (g_free (strv_ptr (Some []))) (fst (h (g_free (strv_ptr (Some []))) env1))]
      in *.
    split_observers. rewrite Hl in Hlisted. cbn in Hlisted.
    injection Hlisted as <-. contradiction.
  - unfold g_strv_length in *. rewrite qsort_whole_array in *.
    destruct (fill_store_log h item (sort_by strvcmp (first :: others)) g env1)
      as (store & Hstore & Hfill).
    destruct (Hfill _ eq_refl) as (Ht1 & Ht2 & Ht3 & Ht4 & Ht5 & Ht6 & Ht7 & Ht8).
    clear Hfill.
    set (tail := log_of h _ g env1) in *.
    assert (Hsame : names = first :: others).
    { split_observers. rewrite Hl, Ht6 in Hlisted. now injection Hlisted. }
    subst names. exists store.
    split; [exact Hstore | ].
    split_observers.
    rewrite Hs, Hq, Hr, Ha, Hu, Hf, Hv, Ht1, Ht2, Ht3, Ht4, Ht7, Ht8. cbn [app].
    repeat split.
    rewrite Ht5. symmetry. apply Permutation_length, sort_by_permutation.
  - change (log_of h (call (g_free (strv_ptr None)) ;; ret None) g env1)
      with [Called (g_free (strv_ptr None)) (fst (h (g_free (strv_ptr None)) env1))] in *.
    split_observers. rewrite Hl in Hlisted. cbn in Hlisted. discriminate Hlisted.
Qed.

Lemma map_snd_pair {A B : Type} (a : A) (l : list B) : map snd (map (pair a) l) = l.
Proof.
  rewrite map_map. apply map_id.
Qed.

Lemma map_fst_pair {A B : Type} (a : A) (l : list B) :
  map fst (map (pair a) l) = repeat a (List.length l).
Proof.
  induction l as [| x l IH]; simpl; [reflexivity | ]. f_equal. exact IH.
Qed.

(** X18. When the listing holds at least one name, [create_settings_model]
    asks for one child per entry of the listing, the names asked for being
    a permutation of the names listed, in ascending [strcmp] order whatever
    order the listing came in.  At the top level ([item] is [NULL]) every child is made by
    [g_settings_new]; under a settings object every child is made by
    [g_settings_get_child] on that object. *)
Theorem create_settings_model_children_sorted :
  forall (Env : Type) (h : Handler Env) (env : Env) (g : Globals) (item unused : option N)
         (first : string) (others : list string),
    listings (log_of h (create_settings_model item unused) g env)
    = [Some (first :: others)] ->
    Sorted (fun a b => (strvcmp a b <= 0)%Z)
      (map snd (children_requested (log_of h (create_settings_model item unused) g env)))
    /\ Permutation (first :: others)
         (map snd (children_requested (log_of h (create_settings_model item unused) g env)))
    /\ map fst (children_requested (log_of h (create_settings_model item unused) g env))
       = repeat item (List.length (first :: others)).
Proof.
  intros Env h env g item unused first others Hlisted.
  assert (Hnames : first :: others <> []) by discriminate.
  destruct (create_settings_model_with_schemas h env g item unused _ Hlisted Hnames)
    as (store & _ & _ & Hrequested & _).
  rewrite Hrequested, map_snd_pair, map_fst_pair.
  split; [ | split].
  - apply sort_by_sorted, strvcmp_total.
  - apply sort_by_permutation.
  - f_equal. symmetry. apply Permutation_length, sort_by_permutation.
Qed.

Lemma create_settings_model_children_sorted_witness :
  Sorted (fun a b => (strvcmp a b <= 0)%Z)
    (map snd
       (children_requested
          (log_of session (create_settings_model None None) no_filter
             (a_session false "7" (Some ["org.gtk"; "org.gnome"; "ca.desrt"]) []))))
  /\ Permutation ["org.gtk"; "org.gnome"; "ca.desrt"]
       (map snd
          (children_requested
             (log_of session (create_settings_model None None) no_filter
                (a_session false "7" (Some ["org.gtk"; "org.gnome"; "ca.desrt"]) []))))
  /\ map fst
       (children_requested
          (log_of session (create_settings_model None None) no_filter
             (a_session false "7" (Some ["org.gtk"; "org.gnome"; "ca.desrt"]) [])))
     = repeat None (List.length ["org.gtk"; "org.gnome"; "ca.desrt"]).
Proof.
  apply (create_settings_model_children_sorted Session session
           (a_session false "7" (Some ["org.gtk"; "org.gnome"; "ca.desrt"]) [])
           no_filter None None "org.gtk" ["org.gnome"; "ca.desrt"]).
  reflexivity.
Defined.

(** The sorted order of those three names. *)
Example create_settings_model_sorts_three :
  map snd
    (children_requested
       (log_of session (create_settings_model None None) no_filter
          (a_session false "7" (Some ["org.gtk"; "org.gnome"; "ca.desrt"]) [])))
  = ["ca.desrt"; "org.gnome"; "org.gtk"].
Proof. reflexivity. Qed.



Lemma create_settings_model_without_schemas_witness :
  value_of session (create_settings_model None None) no_filter
    (a_session false "7" (Some []) []) = None
  /\ freed
       (log_of session (create_settings_model None None) no_filter
          (a_session false "7" (Some []) [])) = [strv_ptr (Some [])]
  /\ strv_freed
       (log_of session (create_settings_model None None) no_filter
          (a_session false "7" (Some []) [])) = []
  /\ stores_returned
       (log_of session (create_settings_model None None) no_filter
          (a_session false "7" (Some []) [])) = []
  /\ children_requested
       (log_of session (create_settings_model None None) no_filter
          (a_session false "7" (Some []) [])) = [].
Proof.
  apply (create_settings_model_without_schemas Session session
           (a_session false "7" (Some []) []) no_filter None None (Some [])).
  - reflexivity.
  - right. reflexivity.
Defined.

(** ** The keys of the selected schema *)

(** The loop looks every key up by name, in order, wraps it into a
    [SettingsKey] that it appends to [store], and drops one reference to
    each of the two objects; it does nothing else. *)
Lemma append_keys_log {Env : Type} (h : Handler Env) (store settings schema : N)
    (keys : list string) :
  forall (g : Globals) (env : Env),
    keys_requested (log_of h (append_keys store settings schema keys) g env) = keys
    /\ schema_keys_wrapped (log_of h (append_keys store settings schema keys) g env)
       = schema_keys_returned (log_of h (append_keys store settings schema keys) g env)
    /\ schema_keys_unreffed (log_of h (append_keys store settings schema keys) g env)
       = schema_keys_returned (log_of h (append_keys store settings schema keys) g env)
    /\ appended (log_of h (append_keys store settings schema keys) g env)
       = map (pair store)
           (settings_keys_returned (log_of h (append_keys store settings schema keys) g env))
    /\ unreffed (log_of h (append_keys store settings schema keys) g env)
       = settings_keys_returned (log_of h (append_keys store settings schema keys) g env)
    /\ List.length
         (settings_keys_returned (log_of h (append_keys store settings schema keys) g env))
       = List.length keys
    /\ keys_listed (log_of h (append_keys store settings schema keys) g env) = []
    /\ stores_returned (log_of h (append_keys store settings schema keys) g env) = []
    /\ strv_freed (log_of h (append_keys store settings schema keys) g env) = []
    /\ filters_returned (log_of h (append_keys store settings schema keys) g env) = []
    /\ filters_modelled (log_of h (append_keys store settings schema keys) g env) = []
    /\ selections_returned (log_of h (append_keys store settings schema keys) g env) = []
    /\ texts_returned (log_of h (append_keys store settings schema keys) g env) = []
    /\ searches (log_of h (append_keys store settings schema keys) g env) = [].
Proof.
  induction keys as [| key rest IH]; intros g env.
  - repeat split.
  - unfold keys_requested, schema_keys_wrapped, schema_keys_returned,
      schema_keys_unreffed, appended, unreffed, settings_keys_returned, keys_listed,
      stores_returned, strv_freed, filters_returned, filters_modelled,
      selections_returned, texts_returned, searches, answers, requests, log_of in *.
    cbn.
    destruct (h (g_settings_schema_get_key schema key) env) as [almost_there env1]. cbn.
    destruct (h (settings_key_new settings almost_there) env1) as [finally env2]. cbn.
    destruct (h (g_list_store_append store finally) env2) as [[] env3]. cbn.
    destruct (h (g_object_unref finally) env3) as [[] env4]. cbn.
    destruct (h (g_settings_schema_key_unref almost_there) env4) as [[] env5]. cbn.
    destruct (IH g env5)
      as (H1 & H2 & H3 & H4 & H5 & H6 & H7 & H8 & H9 & H10 & H11 & H12 & H13 & H14).
    repeat split; cbn; try assumption; f_equal; assumption.
Qed.

Lemma value_of_ret {Env A : Type} (h : Handler Env) (a : A) (g : Globals) (env : Env) :
  value_of h (ret a) g env = a.
Proof. reflexivity. Qed.

Lemma globals_after_ret {Env A : Type} (h : Handler Env) (a : A) (g : Globals)
    (env : Env) :
  globals_after h (ret a) g env = g.
Proof. reflexivity. Qed.

Lemma globals_after_call_bind {Env B : Type} (h : Handler Env) (c : Ext)
    (f : Answer c -> M B) (g : Globals) (env : Env) :
  globals_after h (bind (call c) f) g env
  = globals_after h (f (fst (h c env))) g (snd (h c env)).
Proof.
  rewrite settings_globals_after_bind. reflexivity.
Qed.

(** [g_set_object] on [current_filter]: one call, and the new filter is in. *)
Lemma g_set_object_current_filter_run {Env : Type} (h : Handler Env) (filter : N)
    (g : Globals) (env : Env) :
  log_of h (g_set_object_current_filter filter) g env
  = [Called (g_set_object (current_filter g) filter)
       (fst (h (g_set_object (current_filter g) filter) env))]
  /\ globals_after h (g_set_object_current_filter filter) g env
     = {| current_filter := Some filter |}.
Proof.
  split; reflexivity.
Qed.

Ltac peel_calls :=
  repeat first
    [ rewrite log_of_call_bind
    | rewrite value_of_call_bind
    | rewrite globals_after_call_bind ].

(** X20. The binding transform always reports success.  With no row
    selected (the source value holds [NULL]) it makes no call at all: the
    target value and [current_filter] stay as they were. *)
Theorem transform_settings_to_keys_without_row :
  forall (Env : Type) (h : Handler Env) (env : Env) (g : Globals)
         (binding data : N) (from_value to_value : GValue),
    fst (value_of h (transform_settings_to_keys binding from_value to_value data) g env)
    = true
    /\ calls (log_of h (transform_settings_to_keys binding None to_value data) g env) = []
    /\ snd (value_of h (transform_settings_to_keys binding None to_value data) g env)
       = to_value
    /\ globals_after h (transform_settings_to_keys binding None to_value data) g env = g.
Proof.
  intros Env h env g binding data from_value to_value.
  split; [ | repeat split].
  destruct from_value as [treelistrow | ]; [ | reflexivity].
  unfold transform_settings_to_keys. cbv beta iota delta [g_value_get_object].
  peel_calls. rewrite settings_value_of_bind.
  peel_calls. rewrite settings_value_of_bind.
  peel_calls. rewrite value_of_ret. reflexivity.
Qed.

(** What a run of the transform on a selected row does, told by what the
    log holds. *)
Lemma transform_settings_to_keys_log {Env : Type} (h : Handler Env) (env : Env)
    (g : Globals) (binding data treelistrow : N) (to_value : GValue) :
  exists (settings store filter selection : N) (keys : list string),
    value_of h (transform_settings_to_keys binding (Some treelistrow) to_value data) g env
    = (true, Some selection)
    /\ globals_after h
         (transform_settings_to_keys binding (Some treelistrow) to_value data) g env
       = {| current_filter := Some filter |}
    /\ forall log : list Entry,
        log = log_of h (transform_settings_to_keys binding (Some treelistrow) to_value data)
                g env ->
        keys_listed log = [keys]
        /\ stores_returned log = [store]
        /\ keys_requested log = keys
        /\ schema_keys_wrapped log = schema_keys_returned log
        /\ schema_keys_unreffed log = schema_keys_returned log
        /\ appended log = map (pair store) (settings_keys_returned log)
        /\ unreffed log = settings_keys_returned log ++ [settings]
        /\ List.length (settings_keys_returned log) = List.length keys
        /\ strv_freed log = [keys]
        /\ filters_returned log = [filter]
        /\ filters_modelled log = [filter]
        /\ selections_returned log = [selection]
        /\ texts_returned log = []
        /\ searches log = [].
Proof.
  unfold transform_settings_to_keys. cbv beta iota delta [g_value_get_object].
  peel_calls.
  destruct (h (gtk_tree_list_row_get_item treelistrow) env) as [settings env1].
  cbn [fst snd].
  destruct (h (g_object_get_object settings "settings-schema") env1) as [schema env2].
  cbn [fst snd].
  destruct (h (g_list_store_new SETTINGS_TYPE_KEY) env2) as [store env3].
  cbn [fst snd].
  destruct (h (g_settings_schema_list_keys schema) env3) as [keys env4].
  cbn [fst snd].
  rewrite settings_log_of_bind, settings_value_of_bind, settings_globals_after_bind.
  destruct (append_keys_log h store settings schema keys g env4)
    as (H1 & H2 & H3 & H4 & H5 & H6 & H7 & H8 & H9 & H10 & H11 & H12 & H13 & H14).
  set (loop := log_of h (append_keys store settings schema keys) g env4) in *.
  set (g5 := globals_after h (append_keys store settings schema keys) g env4).
  set (env5 := env_after h (append_keys store settings schema keys) g env4).
  peel_calls.
  destruct (h (g_strfreev keys) env5) as [[] env6]. cbn [fst snd].
  destruct (h (g_settings_schema_unref schema) env6) as [[] env7]. cbn [fst snd].
  destruct (h (g_object_unref settings) env7) as [[] env8]. cbn [fst snd].
  destruct (h (gtk_column_view_get_sorter data) env8) as [sorter env9]. cbn [fst snd].
  destruct (h (g_object_ref sorter) env9) as [[] env10]. cbn [fst snd].
  destruct (h (gtk_sort_list_model_new store sorter) env10) as [sort_model env11].
  cbn [fst snd].
  destruct (h (gtk_property_expression_new SETTINGS_TYPE_KEY None "name") env11)
    as [expression env12]. cbn [fst snd].
  destruct (h (gtk_string_filter_new expression) env12) as [filter env13]. cbn [fst snd].
  rewrite settings_log_of_bind, settings_value_of_bind, settings_globals_after_bind.
  destruct (g_set_object_current_filter_run h filter g5 env13) as [Hset_log Hset_globals].
  rewrite Hset_log, Hset_globals.
  set (env14 := env_after h (g_set_object_current_filter filter) g5 env13).
  peel_calls.
  destruct (h (gtk_filter_list_model_new sort_model filter) env14) as [filter_model env15].
  cbn [fst snd].
  destruct (h (gtk_no_selection_new filter_model) env15) as [selection env16].
  cbn [fst snd].
  rewrite value_of_ret, globals_after_ret, log_of_ret.
  exists settings, store, filter, selection, keys.
  split; [reflexivity | split; [reflexivity | ]].
  intros log ->.
  unfold keys_requested, schema_keys_wrapped, schema_keys_returned,
    schema_keys_unreffed, appended, unreffed, settings_keys_returned, keys_listed,
    stores_returned, strv_freed, filters_returned, filters_modelled,
    selections_returned, texts_returned, searches, answers, requests in *.
  cbn [collect call_of answer_of]. rewrite !collect_app.
  rewrite H1, H2, H3, H4, H5, H7, H8, H9, H10, H11, H12, H13, H14.
  cbn [collect call_of answer_of app]. rewrite ?app_nil_r.
  repeat split. assumption.
Qed.



(** X22. With a row selected, the transform makes one string filter, builds
    the filter model over that very filter, puts the selection model it
    wraps around it into the target value, and leaves [current_filter]
    pointing at the same filter, whatever [current_filter] held before. *)
Theorem transform_settings_to_keys_installs_filter :
  forall (Env : Type) (h : Handler Env) (env : Env) (g : Globals)
         (binding data treelistrow : N) (to_value : GValue),
  exists filter selection : N,
    filters_returned
      (log_of h (transform_settings_to_keys binding (Some treelistrow) to_value data) g env)
    = [filter]
    /\ filters_modelled
         (log_of h (transform_settings_to_keys binding (Some treelistrow) to_value data)
            g env) = [filter]
    /\ selections_returned
         (log_of h (transform_settings_to_keys binding (Some treelistrow) to_value data)
            g env) = [selection]
    /\ value_of h (transform_settings_to_keys binding (Some treelistrow) to_value data)
         g env = (true, Some selection)
    /\ current_filter
         (globals_after h
            (transform_settings_to_keys binding (Some treelistrow) to_value data) g env)
       = Some filter.
Proof.
  intros Env h env g binding data treelistrow to_value.
  destruct (transform_settings_to_keys_log h env g binding data treelistrow to_value)
    as (settings & store & filter & selection & listed & Hvalue & Hglobals & Hlog).
  destruct (Hlog _ eq_refl)
    as (_ & _ & _ & _ & _ & _ & _ & _ & _ & Hfilter & Hmodel & Hselection & _).
  exists filter, selection. rewrite Hglobals. repeat split; assumption.
Qed.

(** ** The search entry *)

Lemma search_log {Env : Type} (h : Handler Env) (env : Env) (entry data : N) (filter : N) :
  exists text : string,
    forall log : list Entry,
      log = log_of h (search_changed entry data) {| current_filter := Some filter |} env ->
      texts_returned log = [text]
      /\ searches log = [(filter, text)]
      /\ filters_returned log = [].
Proof.
  unfold log_of. cbn.
  destruct (h (gtk_editable_get_text entry) env) as [text env1]. cbn.
  destruct (h (gtk_string_filter_set_search filter text) env1) as [[] env2]. cbn.
  exists text. intros log ->. repeat split.
Qed.

(** X23. The search entry drives the filter of the model shown last: a
    search-changed right after the transform ran on a selected row sets the
    entry's text as the search of the filter that transform made, and of no
    other, whatever filter was current before; while no filter has been
    made yet ([current_filter] is [NULL]) a search-changed only reads the
    text and sets no search. *)
Theorem search_changed_follows_latest_filter :
  forall (Env : Type) (h : Handler Env) (env : Env) (g : Globals)
         (binding data treelistrow entry data' : N) (to_value : GValue),
    (exists (filter : N) (text : string),
        filters_returned
          (log_of h
             (transform_settings_to_keys binding (Some treelistrow) to_value data ;;
              search_changed entry data') g env) = [filter]
        /\ texts_returned
             (log_of h
                (transform_settings_to_keys binding (Some treelistrow) to_value data ;;
                 search_changed entry data') g env) = [text]
        /\ searches
             (log_of h
                (transform_settings_to_keys binding (Some treelistrow) to_value data ;;
                 search_changed entry data') g env) = [(filter, text)])
    /\ searches (log_of h (search_changed entry data') no_filter env) = []
    /\ calls (log_of h (search_changed entry data') no_filter env)
       = [gtk_editable_get_text entry].
Proof.
  intros Env h env g binding data treelistrow entry data' to_value.
  split.
  - rewrite settings_log_of_bind.
    destruct (transform_settings_to_keys_log h env g binding data treelistrow to_value)
      as (settings & store & filter & selection & listed & _ & Hglobals & Hlog).
    destruct (Hlog _ eq_refl)
      as (_ & _ & _ & _ & _ & _ & _ & _ & _ & Hfilter & _ & _ & Htexts & Hsearches).
    rewrite Hglobals.
    destruct (search_log h
                (env_after h
                   (transform_settings_to_keys binding (Some treelistrow) to_value data)
                   g env) entry data' filter) as (text & Hsearch).
    destruct (Hsearch _ eq_refl) as (Ht & Hs & Hf).
    exists filter, text.
    unfold filters_returned, texts_returned, searches, answers, requests in *.
    rewrite !collect_app, Hfilter, Htexts, Hsearches, Ht, Hs, Hf.
    repeat split.
  - unfold log_of, no_filter. cbn.
    destruct (h (gtk_editable_get_text entry) env) as [text env1].
    split; reflexivity.
Qed.

(** Stopping the search empties both the entry and the current filter's
    search. *)
Example stop_search_after_transform :
  searches
    (log_of session
       (transform_settings_to_keys 1 (Some 2%N) None 3 ;; stop_search 4 5) no_filter
       (a_session false "mono" None ["font-size"]))
  = [(24%N, EmptyString)].
Proof. reflexivity. Qed.

End ListviewSettingsFacts.
